(** * Low-voltage inventory bookkeeping (procore-lv-inventory.js)

    A shallow embedding of the inventory slice of the program: the record
    class [LVInventoryItem], the manager operations [addItem],
    [adjustQuantity], [searchItems], [generateInventoryReport], and the
    purchase-order reconciliation of [ProcoreSyncManager].

    Modelling conventions.
    - JavaScript numbers are binary64 numbers.  The quantities, costs and
      dates of a record are modelled as integers ([Z]): on integers of
      magnitude below 2^53 the +, -, * and comparisons of the program are
      exact, and the statements about sums and differences of quantities
      and costs are statements about such integers.  On decimal quantities
      the program rounds; the section on decimal quantities below computes
      the same arithmetic in binary64 ([float]) and shows where the two
      part.  [Math.floor(quantity * 0.2)] is computed in binary64 as the
      program does, the product being inexact on integers already.
    - Strings are ASCII strings; [toLowerCase] lowers the letters A-Z.
    - The manager owns a mutable array of record objects.  The array is a
      list; an in-place update of the object found at index [i] is a list
      update at [i] (no object occurs twice in the array: every insertion
      allocates a fresh object).
    - [new Date()] and [Date.now()] read a clock.  The clock is an arbitrary
      function from the number of reads so far to a time in milliseconds.
    - A thrown exception is an outcome next to the state reached so far, so
      that what a failing call did to the store before it threw is visible. *)

From Stdlib Require Import Floats.
From Stdlib Require Import Ascii.
From stdpp Require Import base decidable option numbers list strings pretty gmap.

Local Open Scope Z_scope.
Set Warnings "-inexact-float".

(** ** Records *)

(** [id] and [projectId] are [null] ([None]) or a string; the two dates are
    milliseconds since the epoch.  The quantities and the cost are the
    integers that the record holds; a record with decimal quantities is
    not one of these (its arithmetic is that of [adjustQuantity64] below).
    The field [id] of the source is called [item_id] here, [id] being the
    identity function of the library. *)
Record LVInventoryItem := mkItem {
  item_id : option string;
  projectId : option string;
  category : string;
  subCategory : string;
  manufacturer : string;
  partNumber : string;
  description : string;
  unitOfMeasure : string;
  quantityAvailable : Z;
  quantityAllocated : Z;
  reorderThreshold : Z;
  reorderQuantity : Z;
  location : string;
  cost : Z;
  lastUpdated : Z;
  createdAt : Z;
  customFields : list (string * string)
}.

#[global] Instance LVInventoryItem_eq_dec : EqDecision LVInventoryItem.
Proof. solve_decision. Defined.

(** [get totalQuantity()] *)
Definition totalQuantity (item : LVInventoryItem) : Z :=
  quantityAvailable item + quantityAllocated item.

(** [get needsReorder()] *)
Definition needsReorder (item : LVInventoryItem) : bool :=
  bool_decide (quantityAvailable item <= reorderThreshold item).

(** [toJSON()] copies the seventeen data fields into a plain object: on
    this embedding, where a record is its data fields, the copy is the
    record itself. *)
Definition toJSON (item : LVInventoryItem) : LVInventoryItem := item.

(** Assignments to single fields of a record object. *)
Definition set_quantityAvailable (v : Z) (r : LVInventoryItem) : LVInventoryItem :=
  mkItem (item_id r) (projectId r) (category r) (subCategory r) (manufacturer r)
    (partNumber r) (description r) (unitOfMeasure r) v (quantityAllocated r)
    (reorderThreshold r) (reorderQuantity r) (location r) (cost r)
    (lastUpdated r) (createdAt r) (customFields r).

Definition set_quantityAllocated (v : Z) (r : LVInventoryItem) : LVInventoryItem :=
  mkItem (item_id r) (projectId r) (category r) (subCategory r) (manufacturer r)
    (partNumber r) (description r) (unitOfMeasure r) (quantityAvailable r) v
    (reorderThreshold r) (reorderQuantity r) (location r) (cost r)
    (lastUpdated r) (createdAt r) (customFields r).

Definition set_lastUpdated (v : Z) (r : LVInventoryItem) : LVInventoryItem :=
  mkItem (item_id r) (projectId r) (category r) (subCategory r) (manufacturer r)
    (partNumber r) (description r) (unitOfMeasure r) (quantityAvailable r)
    (quantityAllocated r) (reorderThreshold r) (reorderQuantity r) (location r)
    (cost r) v (createdAt r) (customFields r).

(** The argument of the [LVInventoryItem] constructor: a plain object any
    of whose properties may be missing ([None] is [undefined]). *)
Record ItemData := mkData {
  d_id : option string;
  d_projectId : option string;
  d_category : option string;
  d_subCategory : option string;
  d_manufacturer : option string;
  d_partNumber : option string;
  d_description : option string;
  d_unitOfMeasure : option string;
  d_quantityAvailable : option Z;
  d_quantityAllocated : option Z;
  d_reorderThreshold : option Z;
  d_reorderQuantity : option Z;
  d_location : option string;
  d_cost : option Z;
  d_lastUpdated : option Z;
  d_createdAt : option Z;
  d_customFields : option (list (string * string))
}.

(** [x || ''] on an optional string, [x || 0] on an optional number and
    [x || null] on an optional string: the empty string and zero are falsy. *)
Definition or_empty (x : option string) : string := default "" x.
Definition or_zero (x : option Z) : Z := default 0 x.
Definition or_null (x : option string) : option string :=
  match x with
  | Some s => if decide (s = "") then None else Some s
  | None => None
  end.

(** ** Strings *)

(** [toLowerCase] on one character. *)
Definition toLowerAscii (c : ascii) : ascii :=
  let n := N_of_ascii c in
  if ((65 <=? n) && (n <=? 90))%N then ascii_of_N (n + 32) else c.

Fixpoint toLowerCase (s : string) : string :=
  match s with
  | EmptyString => EmptyString
  | String c s' => String (toLowerAscii c) (toLowerCase s')
  end.

(** [s.startsWith(p)] *)
Fixpoint startsWith (s p : string) {struct p} : bool :=
  match p, s with
  | EmptyString, _ => true
  | String _ _, EmptyString => false
  | String b p', String a s' => bool_decide (a = b) && startsWith s' p'
  end.

(** [s.includes(sub)]: [sub] occurs in [s] at some position. *)
Fixpoint includes (s sub : string) : bool :=
  startsWith s sub ||
  match s with
  | EmptyString => false
  | String _ s' => includes s' sub
  end.

(** ** JavaScript values read through [item[key]] *)

Inductive JSValue :=
| VUndefined
| VNull
| VBool (b : bool)
| VNum (n : Z)
| VStr (s : string)
| VDate (t : Z)
| VObject
| VFunction (source : string).

(** Truthiness: [undefined], [null], [false], [0] and [''] are falsy. *)
Definition truthy (v : JSValue) : bool :=
  match v with
  | VUndefined | VNull => false
  | VBool b => b
  | VNum n => negb (bool_decide (n = 0))
  | VStr s => negb (bool_decide (s = ""))
  | VDate _ | VObject | VFunction _ => true
  end.

(** ** The world: store, clock, browser storage *)

Record World := mkWorld {
  items : list LVInventoryItem;
  clockReads : nat;
  localStorage : gmap string (list LVInventoryItem)
}.

Definition set_items (l : list LVInventoryItem) (w : World) : World :=
  mkWorld l (clockReads w) (localStorage w).

Inductive Error :=
| NotFound (itemId : option string)
| InsufficientStock
| UpstreamUnavailable.

Inductive Outcome (A : Type) :=
| Return (a : A)
| Throw (e : Error).
Arguments Return {A} a.
Arguments Throw {A} e.

(** A computation runs from a world to a world and an outcome. *)
Definition Eff (A : Type) : Type := World → World * Outcome A.

Definition ret {A} (a : A) : Eff A := λ w, (w, Return a).
Definition throw {A} (e : Error) : Eff A := λ w, (w, Throw e).
Definition bind {A B} (c : Eff A) (k : A → Eff B) : Eff B :=
  λ w, match c w with
       | (w', Return a) => k a w'
       | (w', Throw e) => (w', Throw e)
       end.
Definition getItems : Eff (list LVInventoryItem) := λ w, (w, Return (items w)).
Definition putItems (l : list LVInventoryItem) : Eff unit :=
  λ w, (set_items l w, Return tt).

Notation "'let*' x ':=' c 'in' k" := (bind c (λ x, k))
  (at level 10, x pattern, c at level 200, k at level 200,
   format "'let*'  x  ':='  c  'in' '//' k").

Section Inventory.

(** The [n]-th reading of the clock. *)
Variable clock : nat → Z.

(** [new Date()], [Date.now()] *)
Definition newDate : Eff Z :=
  λ w, (mkWorld (items w) (S (clockReads w)) (localStorage w),
        Return (clock (clockReads w))).

(** [new LVInventoryItem(data)].  The clock is read only where a date is
    missing, [lastUpdated] first. *)
Definition newLVInventoryItem (data : ItemData) : Eff LVInventoryItem :=
  let* lu := match d_lastUpdated data with Some t => ret t | None => newDate end in
  let* ca := match d_createdAt data with Some t => ret t | None => newDate end in
  ret (mkItem (or_null (d_id data)) (or_null (d_projectId data))
         (or_empty (d_category data)) (or_empty (d_subCategory data))
         (or_empty (d_manufacturer data)) (or_empty (d_partNumber data))
         (or_empty (d_description data)) (or_empty (d_unitOfMeasure data))
         (or_zero (d_quantityAvailable data)) (or_zero (d_quantityAllocated data))
         (or_zero (d_reorderThreshold data)) (or_zero (d_reorderQuantity data))
         (or_empty (d_location data)) (or_zero (d_cost data))
         lu ca (default [] (d_customFields data))).

(** [addItem(itemData)]: the id is the decimal rendering of [Date.now()]. *)
Definition addItem (itemData : ItemData) : Eff LVInventoryItem :=
  let* now := newDate in
  let* created := newDate in
  let* updated := newDate in
  let* newItem := newLVInventoryItem
      (mkData (Some (pretty now)) (d_projectId itemData) (d_category itemData)
         (d_subCategory itemData) (d_manufacturer itemData)
         (d_partNumber itemData) (d_description itemData)
         (d_unitOfMeasure itemData) (d_quantityAvailable itemData)
         (d_quantityAllocated itemData) (d_reorderThreshold itemData)
         (d_reorderQuantity itemData) (d_location itemData) (d_cost itemData)
         (Some updated) (Some created) (d_customFields itemData)) in
  let* l := getItems in
  let* _ := putItems (l ++ [newItem]) in
  ret newItem.

(** [adjustQuantity(itemId, quantityChange, isAllocation)].  [find] yields
    the first object whose id is [itemId]; the assignments to its fields
    are made on the object at that index [i] of the array. *)
Definition adjustQuantity (itemId : option string) (quantityChange : Z)
    (isAllocation : bool) : Eff LVInventoryItem :=
  let* l := getItems in
  match list_find (λ item, item_id item = itemId) l with
  | None => throw (NotFound itemId)
  | Some (i, item) =>
      let* item :=
        (if isAllocation then
           if bool_decide (quantityChange > 0)
              && bool_decide (quantityAvailable item < quantityChange)
           then throw InsufficientStock
           else
             let item := set_quantityAvailable (quantityAvailable item - quantityChange) item in
             let item := set_quantityAllocated (quantityAllocated item + quantityChange) item in
             ret item
         else
           let item := set_quantityAvailable (quantityAvailable item + quantityChange) item in
           if bool_decide (quantityAvailable item < 0)
           then ret (set_quantityAvailable 0 item)
           else ret item) in
      let* now := newDate in
      let item := set_lastUpdated now item in
      let* _ := putItems (<[i := item]> l) in
      ret item
  end.

End Inventory.

(** ** Searching and reporting *)

Section Reporting.

(** What a property name that is not a data field of the record resolves
    to on the prototype chain other than the two getters of the class: the
    methods of [LVInventoryItem.prototype] and [Object.prototype], and
    [undefined] for every other name. *)
Variable inherited : string → JSValue.

(** The rendering of a date by [toString()]. *)
Variable dateToString : Z → string.

Definition nullable (x : option string) : JSValue :=
  match x with Some s => VStr s | None => VNull end.

(** [item[key]] *)
Definition getProperty (item : LVInventoryItem) (key : string) : JSValue :=
  if decide (key = "id") then nullable (item_id item)
  else if decide (key = "projectId") then nullable (projectId item)
  else if decide (key = "category") then VStr (category item)
  else if decide (key = "subCategory") then VStr (subCategory item)
  else if decide (key = "manufacturer") then VStr (manufacturer item)
  else if decide (key = "partNumber") then VStr (partNumber item)
  else if decide (key = "description") then VStr (description item)
  else if decide (key = "unitOfMeasure") then VStr (unitOfMeasure item)
  else if decide (key = "quantityAvailable") then VNum (quantityAvailable item)
  else if decide (key = "quantityAllocated") then VNum (quantityAllocated item)
  else if decide (key = "reorderThreshold") then VNum (reorderThreshold item)
  else if decide (key = "reorderQuantity") then VNum (reorderQuantity item)
  else if decide (key = "location") then VStr (location item)
  else if decide (key = "cost") then VNum (cost item)
  else if decide (key = "lastUpdated") then VDate (lastUpdated item)
  else if decide (key = "createdAt") then VDate (createdAt item)
  else if decide (key = "customFields") then VObject
  else if decide (key = "totalQuantity") then VNum (totalQuantity item)
  else if decide (key = "needsReorder") then VBool (needsReorder item)
  else inherited key.

(** [v.toString()] of a truthy value ([undefined] and [null] have no
    [toString]; the search tests truthiness before it calls it). *)
Definition toString (v : JSValue) : string :=
  match v with
  | VUndefined | VNull => ""
  | VBool b => if b then "true" else "false"
  | VNum n => pretty n
  | VStr s => s
  | VDate t => dateToString t
  | VObject => "[object Object]"
  | VFunction source => source
  end.

(** One turn of the loop over [Object.entries(criteria)]: [true] when the
    turn does not return [false]. *)
Definition criterionHolds (item : LVInventoryItem) (key value : string) : bool :=
  negb (negb (truthy (getProperty item key))
        || negb (includes (toLowerCase (toString (getProperty item key)))
                          (toLowerCase value))).

(** [searchItems(criteria)] on the array [this.items]: the callback returns
    [true] when no entry of the criteria made it return [false]. *)
Definition searchItems (l : list LVInventoryItem) (criteria : gmap string string)
    : list LVInventoryItem :=
  filter (λ item, map_Forall (λ key value, criterionHolds item key value = true) criteria) l.

Record CategoryTotals := mkTotals { count : Z; value : Z }.

Record Report := mkReport {
  totalItems : Z;
  totalValue : Z;
  lowStockItems : Z;
  byCategory : gmap string CategoryTotals;
  reportItems : list LVInventoryItem
}.

(** The [forEach] body that groups by category. *)
Definition addToCategory (byCategory : gmap string CategoryTotals)
    (item : LVInventoryItem) : gmap string CategoryTotals :=
  let entry := default (mkTotals 0 0) (byCategory !! category item) in
  <[category item := mkTotals (count entry + 1)
                       (value entry + cost item * totalQuantity item)]> byCategory.

(** [generateInventoryReport(filters)] on the array [this.items]. *)
Definition generateInventoryReport (l : list LVInventoryItem)
    (filters : gmap string string) : Report :=
  let reportItems :=
    if bool_decide (0 < size filters)%nat then searchItems l filters else l in
  mkReport
    (Z.of_nat (length reportItems))
    (fold_left (λ sum item, sum + cost item * totalQuantity item) reportItems 0)
    (Z.of_nat (length (filter (λ item, needsReorder item = true) reportItems)))
    (fold_left addToCategory reportItems ∅)
    (toJSON <$> reportItems).

End Reporting.

(** ** Purchase-order reconciliation *)

(** A line item of a purchase order as the vendor sends it: the
    description is always there, the other texts and the received
    quantity may be missing. *)
Record LineItem := mkLine {
  line_description : string;
  part_number : option string;
  line_manufacturer : option string;
  quantity : Z;
  received_quantity : option Z;
  unit : option string;
  unit_cost : option Z
}.

Record PurchaseOrder := mkPO {
  po_id : string;
  title : option string;
  po_description : option string;
  status : string
}.

(** The two requests of the reconciliation, each answering or failing. *)
Record ProcoreApi := mkApi {
  purchase_orders : string → Outcome (list PurchaseOrder);
  line_items : string → string → Outcome (list LineItem)
}.

Definition lvKeywords : list string :=
  ["low voltage"; "lv"; "communications"; "data"; "telecom"; "network"; "cable"].

(** [text?.toLowerCase().includes(keyword)], [undefined] being falsy. *)
Definition lowerIncludes (text : option string) (keyword : string) : bool :=
  match text with
  | Some t => includes (toLowerCase t) keyword
  | None => false
  end.

(** [isLowVoltagePO(po)] *)
Definition isLowVoltagePO (po : PurchaseOrder) : bool :=
  existsb (λ keyword, lowerIncludes (title po) keyword
                      || lowerIncludes (po_description po) keyword) lvKeywords.

(** The callback of [find] in [findMatchingInventoryItem]. *)
Definition lineMatches (lineItem : LineItem) (item : LVInventoryItem) : bool :=
  match part_number lineItem with
  | Some pn => negb (bool_decide (pn = "")) && bool_decide (partNumber item = pn)
  | None => false
  end
  || includes (toLowerCase (description item))
              (toLowerCase (line_description lineItem)).

(** [findMatchingInventoryItem(lineItem)] on the array [this.items]: the
    object found, with its index. *)
Definition findMatchingInventoryItem (lineItem : LineItem)
    (l : list LVInventoryItem) : option (nat * LVInventoryItem) :=
  list_find (λ item, lineMatches lineItem item = true) l.

(** [determineCategoryFromDescription(description)] *)
Definition determineCategoryFromDescription (description : string) : string :=
  let desc := toLowerCase description in
  if includes desc "cable" || includes desc "wire" then "Cable"
  else if includes desc "connector" || includes desc "terminal" then "Connectors"
  else if includes desc "camera" || includes desc "sensor" then "Devices"
  else if includes desc "switch" || includes desc "router"
          || includes desc "access point" then "Network Equipment"
  else if includes desc "card reader" || includes desc "door" then "Access Control"
  else if includes desc "speaker" || includes desc "microphone"
          || includes desc "projector" then "Audio/Visual"
  else if includes desc "alarm" || includes desc "motion"
          || includes desc "security" then "Security"
  else if includes desc "phone" || includes desc "telecom" then "Telecommunications"
  else if includes desc "fiber" then "Fiber Optics"
  else if includes desc "tool" then "Tools"
  else if includes desc "bracket" || includes desc "mount" then "Mounting Hardware"
  else if includes desc "conduit" || includes desc "raceway"
          || includes desc "tray" then "Conduit & Raceways"
  else "Other".

(** [x || 'Each'] *)
Definition or_each (x : option string) : string :=
  match x with
  | Some s => if decide (s = "") then "Each" else s
  | None => "Each"
  end.

(** An integer as a binary64 number: the nearest one, the integer itself
    when its magnitude is below 2^53. *)
Definition numberOfZ (n : Z) : float :=
  SF2Prim (binary_normalize prec emax n 0 false).

(** [Math.floor(x)] on a finite number [x = m * 2^e]. *)
Definition Math_floor (x : float) : Z :=
  match Prim2SF x with
  | S754_finite s m e =>
      let n := if s then Z.neg m else Z.pos m in
      if bool_decide (0 <= e) then n * 2 ^ e else n `div` 2 ^ (- e)
  | _ => 0
  end.

(** [createInventoryItemFromPOLine(lineItem, projectId)]: a plain object
    without an [id].  The threshold [Math.floor(lineItem.quantity * 0.2)]
    is the floor of the binary64 product of the quantity and the binary64
    number nearest to 0.2. *)
Definition createInventoryItemFromPOLine (lineItem : LineItem)
    (projectId : string) : ItemData :=
  mkData None (Some projectId)
    (Some (determineCategoryFromDescription (line_description lineItem)))
    (Some "")
    (Some (or_empty (line_manufacturer lineItem)))
    (Some (or_empty (part_number lineItem)))
    (Some (line_description lineItem))
    (Some (or_each (unit lineItem)))
    (Some (quantity lineItem))
    (Some 0)
    (Some (Math_floor (numberOfZ (quantity lineItem) * 0.2)%float))
    (Some (quantity lineItem))
    (Some "From PO")
    (Some (or_zero (unit_cost lineItem)))
    None None None.

(** A value put into the set [updatedItems]: the [id] of a matched record
    ([null] or a string), or [undefined]. *)
Inductive IdValue :=
| IdUndefined
| IdOf (i : option string).

#[global] Instance IdValue_eq_dec : EqDecision IdValue.
Proof. solve_decision. Defined.

(** [set.add(x)] and [set.size] on a set kept as a duplicate-free list. *)
Definition setAdd (x : IdValue) (s : list IdValue) : list IdValue :=
  if decide (x ∈ s) then s else s ++ [x].

(** [for (const x of l) { ... }] threading an accumulator. *)
Fixpoint forOf {A S : Type} (body : S → A → Eff S) (l : list A) (acc : S) : Eff S :=
  match l with
  | [] => ret acc
  | x :: l' => let* acc' := body acc x in forOf body l' acc'
  end.

(** [await this.procoreApi.request(...)] *)
Definition request {A} (answer : Outcome A) : Eff A := λ w, (w, answer).

Section Reconciliation.

Variable clock : nat → Z.
Variable procoreApi : ProcoreApi.

(** [saveInventory(projectId)]: a failure of the upstream write is caught
    and logged; the array is always written to the browser storage. *)
Definition saveInventory (projectId : string) : Eff bool :=
  λ w, (mkWorld (items w) (clockReads w)
          (<["inventory_" +:+ projectId := toJSON <$> items w]> (localStorage w)),
        Return true).

Definition approvedOrClosed (po : PurchaseOrder) : bool :=
  bool_decide (status po = "Approved") || bool_decide (status po = "Closed").

(** The body of the loop over the line items of one purchase order. *)
Definition processLineItem (po : PurchaseOrder) (projectId : string)
    (updatedItems : list IdValue) (lineItem : LineItem) : Eff (list IdValue) :=
  let* l := getItems in
  match findMatchingInventoryItem lineItem l with
  | Some (_, matchedItem) =>
      if approvedOrClosed po then
        let quantityChange := quantity lineItem - or_zero (received_quantity lineItem) in
        if bool_decide (quantityChange > 0) then
          let* _ := adjustQuantity clock (item_id matchedItem) quantityChange false in
          ret (setAdd (IdOf (item_id matchedItem)) updatedItems)
        else ret updatedItems
      else ret updatedItems
  | None =>
      if approvedOrClosed po then
        let newItem := createInventoryItemFromPOLine lineItem projectId in
        let* _ := addItem clock newItem in
        ret (setAdd IdUndefined updatedItems)
      else ret updatedItems
  end.

(** The body of the loop over the purchase orders. *)
Definition processPurchaseOrder (projectId : string)
    (updatedItems : list IdValue) (po : PurchaseOrder) : Eff (list IdValue) :=
  if negb (isLowVoltagePO po) then ret updatedItems
  else
    let* lineItems := request (line_items procoreApi projectId (po_id po)) in
    forOf (processLineItem po projectId) lineItems updatedItems.

(** [syncWithPurchaseOrders(projectId)]; the [catch] block logs and throws
    the error again. *)
Definition syncWithPurchaseOrders (projectId : string) : Eff Z :=
  let* purchaseOrders := request (purchase_orders procoreApi projectId) in
  let* updatedItems := forOf (processPurchaseOrder projectId) purchaseOrders [] in
  if bool_decide (0 < length updatedItems)%nat then
    let* _ := saveInventory projectId in
    ret (Z.of_nat (length updatedItems))
  else ret 0.

End Reconciliation.

(** ** The other operations of the manager *)

(** The categories the manager offers. *)
Definition categories : list string :=
  ["Cable"; "Connectors"; "Devices"; "Network Equipment"; "Access Control";
   "Audio/Visual"; "Security"; "Telecommunications"; "Fiber Optics"; "Tools";
   "Mounting Hardware"; "Conduit & Raceways"; "Other"].

(** The plain object [item.toJSON()], and the object that [JSON.parse]
    gives back for it, read as constructor data: every property is there.
    An [id] that is [null] is [None], as a missing one is: the constructor
    treats the two alike. *)
Definition dataOf (item : LVInventoryItem) : ItemData :=
  mkData (item_id item) (projectId item) (Some (category item))
    (Some (subCategory item)) (Some (manufacturer item)) (Some (partNumber item))
    (Some (description item)) (Some (unitOfMeasure item))
    (Some (quantityAvailable item)) (Some (quantityAllocated item))
    (Some (reorderThreshold item)) (Some (reorderQuantity item))
    (Some (location item)) (Some (cost item))
    (Some (lastUpdated item)) (Some (createdAt item))
    (Some (customFields item)).

(** One property of [{...base, ...updates}]: the one of [updates] when it
    is there. *)
Definition orElse {A} (update base : option A) : option A :=
  match update with
  | Some _ => update
  | None => base
  end.

(** [{...base, ...updates}] *)
Definition spread (base updates : ItemData) : ItemData :=
  mkData (orElse (d_id updates) (d_id base))
    (orElse (d_projectId updates) (d_projectId base))
    (orElse (d_category updates) (d_category base))
    (orElse (d_subCategory updates) (d_subCategory base))
    (orElse (d_manufacturer updates) (d_manufacturer base))
    (orElse (d_partNumber updates) (d_partNumber base))
    (orElse (d_description updates) (d_description base))
    (orElse (d_unitOfMeasure updates) (d_unitOfMeasure base))
    (orElse (d_quantityAvailable updates) (d_quantityAvailable base))
    (orElse (d_quantityAllocated updates) (d_quantityAllocated base))
    (orElse (d_reorderThreshold updates) (d_reorderThreshold base))
    (orElse (d_reorderQuantity updates) (d_reorderQuantity base))
    (orElse (d_location updates) (d_location base))
    (orElse (d_cost updates) (d_cost base))
    (orElse (d_lastUpdated updates) (d_lastUpdated base))
    (orElse (d_createdAt updates) (d_createdAt base))
    (orElse (d_customFields updates) (d_customFields base)).

(** [{...data, lastUpdated: t}] *)
Definition withLastUpdated (t : Z) (data : ItemData) : ItemData :=
  mkData (d_id data) (d_projectId data) (d_category data) (d_subCategory data)
    (d_manufacturer data) (d_partNumber data) (d_description data)
    (d_unitOfMeasure data) (d_quantityAvailable data) (d_quantityAllocated data)
    (d_reorderThreshold data) (d_reorderQuantity data) (d_location data)
    (d_cost data) (Some t) (d_createdAt data) (d_customFields data).

(** [getItemsNeedingReorder()] on the array [this.items]. *)
Definition getItemsNeedingReorder (l : list LVInventoryItem) : list LVInventoryItem :=
  filter (λ item, needsReorder item = true) l.

(** [data.map(item => new LVInventoryItem(item))] *)
Fixpoint mapEff {A B : Type} (f : A → Eff B) (l : list A) : Eff (list B) :=
  match l with
  | [] => ret []
  | x :: l' =>
      let* y := f x in
      let* ys := mapEff f l' in
      ret (y :: ys)
  end.

Section Manager.

Variable clock : nat → Z.

(** [updateItem(itemId, updates)] *)
Definition updateItem (itemId : option string) (updates : ItemData)
    : Eff LVInventoryItem :=
  let* l := getItems in
  match list_find (λ item, item_id item = itemId) l with
  | None => throw (NotFound itemId)
  | Some (index, item) =>
      let* now := newDate clock in
      let* updatedItem :=
        newLVInventoryItem clock
          (withLastUpdated now (spread (dataOf (toJSON item)) updates)) in
      let* _ := putItems (<[index := updatedItem]> l) in
      ret updatedItem
  end.

(** [deleteItem(itemId)]: [splice(index, 1)] takes the element at [index]
    out of the array. *)
Definition deleteItem (itemId : option string) : Eff bool :=
  let* l := getItems in
  match list_find (λ item, item_id item = itemId) l with
  | None => throw (NotFound itemId)
  | Some (index, _) =>
      let* _ := putItems (delete index l) in
      ret true
  end.

(** [loadInventory(projectId)], given the answer of the request for the
    project's inventory.  When the request fails the browser storage is
    read; when nothing is stored there the array stays as it is. *)
Definition loadInventory (response : Outcome (list ItemData)) (projectId : string)
    : Eff (list LVInventoryItem) :=
  let* _ :=
    match response with
    | Return data =>
        let* loaded := mapEff (newLVInventoryItem clock) data in
        putItems loaded
    | Throw _ =>
        λ w, match localStorage w !! ("inventory_" +:+ projectId) with
             | Some storedItems =>
                 (let* loaded := mapEff (newLVInventoryItem clock)
                                   (dataOf <$> storedItems) in
                  putItems loaded) w
             | None => (w, Return tt)
             end
    end in
  getItems.

End Manager.

(** ** The export *)

Definition newline : string := String (ascii_of_nat 10) EmptyString.

(** [cells.join(sep)] on an array of strings. *)
Fixpoint join (sep : string) (cells : list string) : string :=
  match cells with
  | [] => ""
  | cell :: rest =>
      match rest with
      | [] => cell
      | _ :: _ => cell +:+ sep +:+ join sep rest
      end
  end.

Definition csvHeaders : list string :=
  ["ID"; "Category"; "Sub-Category"; "Manufacturer"; "Part Number";
   "Description"; "Unit"; "Quantity Available"; "Quantity Allocated";
   "Total Quantity"; "Reorder Threshold"; "Reorder Quantity";
   "Location"; "Cost"; "Total Value"; "Last Updated"].

(** [n.toFixed(2)] of an integer. *)
Definition toFixed2 (n : Z) : string := pretty n +:+ ".00".

Section CsvExport.

(** [new Date(t).toLocaleDateString()] *)
Variable toLocaleDateString : Z → string.

(** The cells of a record's row, each as [join] renders it: a [null] id
    as the empty string, a number in decimal. *)
Definition csvRow (item : LVInventoryItem) : list string :=
  [default "" (item_id item); category item; subCategory item;
   manufacturer item; partNumber item; description item; unitOfMeasure item;
   pretty (quantityAvailable item); pretty (quantityAllocated item);
   pretty (totalQuantity item); pretty (reorderThreshold item);
   pretty (reorderQuantity item); location item; pretty (cost item);
   toFixed2 (cost item * totalQuantity item);
   toLocaleDateString (lastUpdated item)].

(** [exportToCSV()] on the array [this.items]. *)
Definition exportToCSV (l : list LVInventoryItem) : string :=
  join newline (join "," csvHeaders :: ((λ item, join "," (csvRow item)) <$> l)).

End CsvExport.

(** ** The page *)

(** The records that [filterInventoryItems(searchTerm)] renders: all of
    them for the empty term, else those one of whose six texts holds the
    term, case ignored.  The array of the manager is put back as it was. *)
Definition filterInventoryItems (l : list LVInventoryItem) (searchTerm : string)
    : list LVInventoryItem :=
  if decide (searchTerm = "") then l
  else
    filter
      (λ item,
         existsb (λ field, includes (toLowerCase field) (toLowerCase searchTerm))
           [category item; subCategory item; manufacturer item;
            partNumber item; description item; location item] = true)
      l.



Section Handlers.

Variable clock : nat → Z.




End Handlers.

(** ** Decimal quantities *)

(** The two quantities of a record as the program holds them, binary64
    numbers, for the adjustments of quantities that are not integers. *)
Record Quantities64 := mkQuantities {
  available64 : float;
  allocated64 : float
}.


(** The arithmetic of [adjustQuantity] on the quantities of the record
    found, in binary64; [None] is the thrown error. *)
Definition adjustQuantity64 (item : Quantities64) (quantityChange : float)
    (isAllocation : bool) : option Quantities64 :=
  if isAllocation then
    if (0 <? quantityChange)%float && (available64 item <? quantityChange)%float
    then None
    else
      Some (mkQuantities (available64 item - quantityChange)%float
              (allocated64 item + quantityChange)%float)
  else
    let available := (available64 item + quantityChange)%float in
    if (available <? 0)%float
    then Some (mkQuantities 0%float (allocated64 item))
    else Some (mkQuantities available (allocated64 item)).

(** [sum += value] for each of the values in turn, from 0: how the report
    accumulates [totalValue] and the [value] of a category. *)
Definition addUp64 (values : list float) : float :=
  fold_left PrimFloat.add values 0%float.

(** ** Notions used in the statements *)

(** The record [r] sits at index [i] of the array and no earlier record
    carries its id: [r] is the record that [find] resolves [r.id] to. *)
Definition resolves (l : list LVInventoryItem) (i : nat) (r : LVInventoryItem) : Prop :=
  l !! i = Some r ∧ ∀ j y, l !! j = Some y → (j < i)%nat → item_id y ≠ item_id r.

(** The record after a stock adjustment and after an allocation. *)
Definition stocked (now delta : Z) (r : LVInventoryItem) : LVInventoryItem :=
  set_lastUpdated now (set_quantityAvailable (Z.max 0 (quantityAvailable r + delta)) r).

Definition allocated (now delta : Z) (r : LVInventoryItem) : LVInventoryItem :=
  set_lastUpdated now
    (set_quantityAllocated (quantityAllocated r + delta)
       (set_quantityAvailable (quantityAvailable r - delta) r)).

Definition tick (w : World) : World :=
  mkWorld (items w) (S (clockReads w)) (localStorage w).

(** The matching rule in the words of the specification: the text [sub]
    occurs in [text] when letter case is ignored; a line item matches a
    record when it has a non-empty part number equal to the record's, or
    when its description occurs in the record's, case ignored. *)
Definition containsIgnoringCase (text sub : string) : Prop :=
  ∃ pre post, toLowerCase text = pre +:+ toLowerCase sub +:+ post.

Definition matchesBySpec (lineItem : LineItem) (item : LVInventoryItem) : Prop :=
  (∃ pn, part_number lineItem = Some pn ∧ pn ≠ "" ∧ partNumber item = pn)
  ∨ containsIgnoringCase (description item) (line_description lineItem).

(** The sum of [f] over the records of a list. *)
Fixpoint sumOver (f : LVInventoryItem → Z) (l : list LVInventoryItem) : Z :=
  match l with
  | [] => 0
  | item :: l' => f item + sumOver f l'
  end.

(** A call of [adjustQuantity] and a sequence of calls, each one inside
    a [try] block of its caller as in the form handler: what a call did
    stays, whether it returned or threw. *)
Record Call := mkCall {
  call_itemId : option string;
  call_quantityChange : Z;
  call_isAllocation : bool
}.

Definition runCalls (clock : nat → Z) (calls : list Call) (w : World) : World :=
  fold_left
    (λ w c, fst (adjustQuantity clock (call_itemId c) (call_quantityChange c)
                   (call_isAllocation c) w))
    calls w.

(** Concrete data for the examples. *)
Definition clock0 : nat → Z := λ n, 1700000000000 + Z.of_nat n.

Definition world0 : World := mkWorld [] 0 ∅.

Definition sampleRecord (id : string) (available allocated threshold price : Z)
    : LVInventoryItem :=
  mkItem (Some id) None "Cable" "Cat6" "" "" "Cat6 cable" "Feet"
    available allocated threshold 0 "Warehouse" price 0 0 [].

Definition sampleWorld (l : list LVInventoryItem) : World := mkWorld l 0 ∅.

(** The data of a form submission or of a purchase-order line. *)
Definition sampleData (available : Z) : ItemData :=
  mkData None None (Some "Cable") (Some "Cat6") None None (Some "Cat6 cable")
    (Some "Feet") (Some available) (Some 0) (Some 1) (Some 10)
    (Some "Warehouse") (Some 10) None None None.

(** The record that [addItem] makes of [sampleData] on the empty store
    under [clock0]. *)
Definition addedRecord (available : Z) : LVInventoryItem :=
  mkItem (Some "1700000000000") None "Cable" "Cat6" "" "" "Cat6 cable" "Feet"
    available 0 1 10 "Warehouse" 10 1700000000002 1700000000001 [].

(** A purchase order, a line item without part number, and a vendor
    that answers with one order carrying one line. *)
Definition sampleOrder (status : string) : PurchaseOrder :=
  mkPO "PO-7" (Some "Cable for level 2") None status.

Definition sampleLine (description : string) (quantity : Z)
    (received : option Z) : LineItem :=
  mkLine description None None quantity received None (Some 3).

Definition sampleApi (po : PurchaseOrder) (lineItem : LineItem) : ProcoreApi :=
  mkApi (λ _, Return [po]) (λ _ _, Return [lineItem]).

(** A record as the constructor makes it: an [id] and a [projectId] that
    are not [null] are not the empty string. *)
Definition constructed (r : LVInventoryItem) : Prop :=
  item_id r ≠ Some "" ∧ projectId r ≠ Some "".

(** An object without properties. *)
Definition noUpdates : ItemData :=
  mkData None None None None None None None None None None None None None None
    None None None.

(** The record that an update makes of [r]: a property of the update is
    taken as it is, a missing one is kept from [r]; the time of the update
    is [now]. *)
Definition updated (now : Z) (r : LVInventoryItem) (updates : ItemData)
    : LVInventoryItem :=
  mkItem
    (match d_id updates with Some s => or_null (Some s) | None => item_id r end)
    (match d_projectId updates with Some s => or_null (Some s) | None => projectId r end)
    (default (category r) (d_category updates))
    (default (subCategory r) (d_subCategory updates))
    (default (manufacturer r) (d_manufacturer updates))
    (default (partNumber r) (d_partNumber updates))
    (default (description r) (d_description updates))
    (default (unitOfMeasure r) (d_unitOfMeasure updates))
    (default (quantityAvailable r) (d_quantityAvailable updates))
    (default (quantityAllocated r) (d_quantityAllocated updates))
    (default (reorderThreshold r) (d_reorderThreshold updates))
    (default (reorderQuantity r) (d_reorderQuantity updates))
    (default (location r) (d_location updates))
    (default (cost r) (d_cost updates))
    now
    (default (createdAt r) (d_createdAt updates))
    (default (customFields r) (d_customFields updates)).

(** The record that [addItem] makes of [data] when the clock has been
    read [n] times before: the id is the rendering of the first reading,
    whatever id the data carry. *)
Definition added (clock : nat → Z) (n : nat) (data : ItemData) : LVInventoryItem :=
  mkItem (Some (pretty (clock n))) (or_null (d_projectId data))
    (or_empty (d_category data)) (or_empty (d_subCategory data))
    (or_empty (d_manufacturer data)) (or_empty (d_partNumber data))
    (or_empty (d_description data)) (or_empty (d_unitOfMeasure data))
    (or_zero (d_quantityAvailable data)) (or_zero (d_quantityAllocated data))
    (or_zero (d_reorderThreshold data)) (or_zero (d_reorderQuantity data))
    (or_empty (d_location data)) (or_zero (d_cost data))
    (clock (S (S n))) (clock (S n)) (default [] (d_customFields data)).

(** The counts and the values of a category breakdown, added up. *)
Definition categoryCountTotal (m : gmap string CategoryTotals) : Z :=
  map_fold (λ _ entry acc, count entry + acc) 0 m.

Definition categoryValueTotal (m : gmap string CategoryTotals) : Z :=
  map_fold (λ _ entry acc, value entry + acc) 0 m.

(** The property names that a plain object inherits from
    [Object.prototype]: under such a name [byCategory[name]] is truthy
    before the report has written to it. *)
Definition objectPrototypeNames : list string :=
  ["constructor"; "__defineGetter__"; "__defineSetter__"; "hasOwnProperty";
   "__lookupGetter__"; "__lookupSetter__"; "isPrototypeOf";
   "propertyIsEnumerable"; "toString"; "valueOf"; "__proto__";
   "toLocaleString"].

(** How often a character occurs in a text, and the pieces of a text
    between the occurrences of a character ([text.split(c)]). *)
Fixpoint occurrences (c : ascii) (text : string) : nat :=
  match text with
  | EmptyString => 0
  | String a rest => (if decide (a = c) then 1 else 0) + occurrences c rest
  end.

Fixpoint splitOn (c : ascii) (text : string) : list string :=
  match text with
  | EmptyString => [EmptyString]
  | String a rest =>
      if decide (a = c) then EmptyString :: splitOn c rest
      else match splitOn c rest with
           | piece :: pieces => String a piece :: pieces
           | [] => [String a EmptyString]
           end
  end.

(** The cells of a record's row that are texts of the record or of the
    environment; the other seven are numbers. *)
Definition textCells (toLocaleDateString : Z → string) (item : LVInventoryItem)
    : list string :=
  [default "" (item_id item); category item; subCategory item;
   manufacturer item; partNumber item; description item; unitOfMeasure item;
   location item; toLocaleDateString (lastUpdated item)].



(** The line item [later] would match the record made of the line item
    [earlier]. *)
Definition lineCovers (later earlier : LineItem) : bool :=
  match part_number later with
  | Some pn => negb (bool_decide (pn = ""))
               && bool_decide (or_empty (part_number earlier) = pn)
  | None => false
  end
  || includes (toLowerCase (line_description earlier))
              (toLowerCase (line_description later)).

(** No line item of the list would match the record made of an earlier
    one. *)
Fixpoint unrelatedLines (lineItems : list LineItem) : Prop :=
  match lineItems with
  | [] => True
  | earlier :: rest =>
      Forall (λ later, lineCovers later earlier = false) rest
      ∧ unrelatedLines rest
  end.

(** The threshold that the program computes for a quantity is the fifth
    of the quantity, rounded down, on each of the [n] integers from [q]
    on. *)
Fixpoint fifthsFrom (q : Z) (n : nat) : bool :=
  match n with
  | O => true
  | S m => bool_decide (Math_floor (numberOfZ q * 0.2)%float = q `div` 5)
           && fifthsFrom (q + 1) m
  end.



(** A store of two records, an update of one quantity, and line items
    for the examples of the further properties. *)
Definition record17 : LVInventoryItem := sampleRecord "17" 3 4 1 10.

Definition record18 : LVInventoryItem := sampleRecord "18" 6 0 1 10.

Definition sampleStore : World := sampleWorld [record17; record18].

Definition sampleUpdates : ItemData :=
  mkData None None None None None None None None (Some 9) None None None None
    None None None None.

Definition cableLine : LineItem := sampleLine "Cat6 cable" 10 (Some 2).

Definition cameraLine : LineItem := sampleLine "Dome camera" 4 None.

Definition plainDate : Z → string := λ t, pretty t.

Definition twoLineApi : ProcoreApi :=
  mkApi (λ _, Return [sampleOrder "Approved"]) (λ _ _, Return [cableLine; cameraLine]).

Definition noInherited : string → JSValue := λ _, VUndefined.

(** * Properties *)

(** ** Strings *)

Lemma startsWith_spec (s p : string) :
  startsWith s p = true ↔ ∃ post, s = p +:+ post.
Proof.
  revert s. induction p as [|b p IH]; intros s; simpl.
  - split; [intros _; by exists s | auto].
  - destruct s as [|a s]; simpl.
    + split; [done | intros [post H]; discriminate H].
    + rewrite andb_true_iff, bool_decide_eq_true, IH. split.
      * intros [-> [post ->]]. by exists post.
      * intros [post H]. injection H as -> ->. eauto.
Qed.

Lemma includes_spec (s sub : string) :
  includes s sub = true ↔ ∃ pre post, s = pre +:+ sub +:+ post.
Proof.
  induction s as [|a s IH]; simpl.
  - rewrite orb_false_r, startsWith_spec. split.
    + intros [post H]. by exists "", post.
    + intros [pre [post H]]. destruct pre; [by exists post | discriminate H].
  - rewrite orb_true_iff, startsWith_spec, IH. split.
    + intros [[post H] | [pre [post H]]].
      * by exists "", post.
      * exists (String a pre), post. simpl. by rewrite H.
    + intros [pre [post H]]. destruct pre as [|c pre]; simpl in H.
      * left. by exists post.
      * right. injection H as _ H. by exists pre, post.
Qed.

Lemma includes_empty (s : string) : includes s "" = true.
Proof. by destruct s. Qed.

Lemma toLowerCase_app (a b : string) :
  toLowerCase (a +:+ b) = toLowerCase a +:+ toLowerCase b.
Proof. induction a as [|c a IH]; simpl; [done | by rewrite IH]. Qed.

Lemma includes_toLowerCase (s sub : string) :
  includes s sub = true → includes (toLowerCase s) (toLowerCase sub) = true.
Proof.
  rewrite !includes_spec. intros [pre [post ->]].
  exists (toLowerCase pre), (toLowerCase post). by rewrite !toLowerCase_app.
Qed.

(** ** Quantity adjustments *)

Lemma resolves_find (l : list LVInventoryItem) i r :
  resolves l i r ↔ list_find (λ item, item_id item = item_id r) l = Some (i, r).
Proof.
  unfold resolves. rewrite list_find_Some. split.
  - intros [Hi Hfirst]. by split_and!.
  - intros (Hi & _ & Hfirst). by split.
Qed.

(** In a store whose ids are pairwise distinct every record is resolved by
    its id. *)
Lemma NoDup_resolves (l : list LVInventoryItem) i r :
  NoDup (item_id <$> l) → l !! i = Some r → resolves l i r.
Proof.
  intros Hnd Hi. split; [done |]. intros j y Hj Hlt Heq.
  assert (i = j); [| lia].
  eapply NoDup_lookup; [exact Hnd | |]; rewrite list_lookup_fmap.
  - by rewrite Hi.
  - rewrite Hj. simpl. by rewrite Heq.
Qed.

Section AdjustFacts.

Variable clock : nat → Z.

Lemma adjustQuantity_not_found itemId delta mode w :
  list_find (λ item, item_id item = itemId) (items w) = None →
  adjustQuantity clock itemId delta mode w = (w, Throw (NotFound itemId)).
Proof.
  intros H. unfold adjustQuantity, bind, getItems. by rewrite H.
Qed.

Lemma adjustQuantity_stock itemId delta w i r :
  list_find (λ item, item_id item = itemId) (items w) = Some (i, r) →
  adjustQuantity clock itemId delta false w =
    (set_items (<[i := stocked (clock (clockReads w)) delta r]> (items w)) (tick w),
     Return (stocked (clock (clockReads w)) delta r)).
Proof.
  intros H. unfold adjustQuantity, bind, getItems. rewrite H. simpl.
  unfold stocked. case_bool_decide as Hneg; simpl in *.
  - by rewrite Z.max_l by lia.
  - rewrite Z.max_r by lia. by destruct r.
Qed.

Lemma adjustQuantity_insufficient itemId delta w i r :
  list_find (λ item, item_id item = itemId) (items w) = Some (i, r) →
  delta > 0 → quantityAvailable r < delta →
  adjustQuantity clock itemId delta true w = (w, Throw InsufficientStock).
Proof.
  intros H Hpos Hlt. unfold adjustQuantity, bind, getItems. rewrite H. simpl.
  by rewrite !bool_decide_eq_true_2.
Qed.

Lemma adjustQuantity_allocation itemId delta w i r :
  list_find (λ item, item_id item = itemId) (items w) = Some (i, r) →
  ¬ (delta > 0 ∧ quantityAvailable r < delta) →
  adjustQuantity clock itemId delta true w =
    (set_items (<[i := allocated (clock (clockReads w)) delta r]> (items w)) (tick w),
     Return (allocated (clock (clockReads w)) delta r)).
Proof.
  intros H Hok. unfold adjustQuantity, bind, getItems. rewrite H. simpl.
  destruct (bool_decide (delta > 0) && bool_decide (quantityAvailable r < delta)) eqn:E.
  - apply andb_true_iff in E as [?%bool_decide_eq_true ?%bool_decide_eq_true].
    by destruct Hok.
  - done.
Qed.

End AdjustFacts.

(** C5: in stock mode, on a record with 3 available, a change of -5
    returns without raising and leaves 0 available; in general a negative
    change whose sum with the available quantity is below zero returns
    without raising and leaves 0 available.  Nothing else of the record
    but the time of the last update changes, and no other record does. *)
Theorem adjustQuantity_stock_floors_at_zero (clock : nat → Z) (w : World)
    (i : nat) (r : LVInventoryItem) :
  resolves (items w) i r →
  (quantityAvailable r = 3 →
     ∃ w' r', adjustQuantity clock (item_id r) (-5) false w = (w', Return r')
       ∧ items w' = <[i := r']> (items w)
       ∧ quantityAvailable r' = 0
       ∧ quantityAllocated r' = quantityAllocated r)
  ∧ (∀ delta, delta < 0 → quantityAvailable r + delta < 0 →
     ∃ w' r', adjustQuantity clock (item_id r) delta false w = (w', Return r')
       ∧ items w' = <[i := r']> (items w)
       ∧ quantityAvailable r' = 0
       ∧ quantityAllocated r' = quantityAllocated r).
Proof.
  intros Hr%resolves_find.
  assert (∀ delta, quantityAvailable r + delta < 0 →
     ∃ w' r', adjustQuantity clock (item_id r) delta false w = (w', Return r')
       ∧ items w' = <[i := r']> (items w)
       ∧ quantityAvailable r' = 0
       ∧ quantityAllocated r' = quantityAllocated r) as Hgen.
  { intros delta Hlow. eexists _, _.
    split; [by apply adjustQuantity_stock |].
    split; [done |]. simpl. split; [lia | done]. }
  split.
  - intros H3. apply Hgen. lia.
  - intros delta _ Hlow. by apply Hgen.
Qed.

Lemma adjustQuantity_stock_floors_at_zero_witness :
  resolves (items (sampleWorld [sampleRecord "17" 3 4 1 10])) 0
           (sampleRecord "17" 3 4 1 10)
  ∧ ∃ w' r',
      adjustQuantity clock0 (Some "17") (-5) false
        (sampleWorld [sampleRecord "17" 3 4 1 10]) = (w', Return r')
      ∧ items w' = [r'] ∧ quantityAvailable r' = 0 ∧ quantityAllocated r' = 4.
Proof.
  assert (resolves (items (sampleWorld [sampleRecord "17" 3 4 1 10])) 0
            (sampleRecord "17" 3 4 1 10)) as Hres.
  { split; [reflexivity | intros j y _ Hj; lia]. }
  split; [exact Hres |].
  destruct (adjustQuantity_stock_floors_at_zero clock0 _ _ _ Hres) as [H3 _].
  exact (H3 eq_refl).
Defined.




(** C7: [needsReorder] is true exactly when the available quantity is at
    most the reorder threshold; it is true when the two are equal. *)
Theorem needsReorder_iff_at_or_below_threshold (item : LVInventoryItem) :
  (needsReorder item = true ↔ quantityAvailable item <= reorderThreshold item)
  ∧ (quantityAvailable item = reorderThreshold item → needsReorder item = true).
Proof.
  unfold needsReorder. rewrite bool_decide_eq_true. split; [done | lia].
Qed.

(** X2: on a record whose available quantity is not negative, every change
    above the available quantity is refused in allocation mode, and the
    world is the one before the call. *)
Lemma adjustQuantity_allocation_refused_nonneg (clock : nat → Z) (w : World)
    (i : nat) (r : LVInventoryItem) (delta : Z) :
  resolves (items w) i r →
  0 <= quantityAvailable r → delta > quantityAvailable r →
  adjustQuantity clock (item_id r) delta true w = (w, Throw InsufficientStock).
Proof.
  intros Hr%resolves_find Hnn Hgt.
  apply (adjustQuantity_insufficient clock _ _ _ _ _ Hr); lia.
Qed.

Lemma adjustQuantity_allocation_refused_nonneg_witness :
  let r := sampleRecord "17" 0 4 1 10 in
  adjustQuantity clock0 (item_id r) 1 true (sampleWorld [r])
    = (sampleWorld [r], Throw InsufficientStock).
Proof.
  intros r.
  apply (adjustQuantity_allocation_refused_nonneg clock0 (sampleWorld [r]) 0 r 1).
  - split; [reflexivity | intros j y _ Hj; lia].
  - simpl. lia.
  - simpl. lia.
Defined.

(** C2, as stated, fails: a record created with -3 available (the
    constructor takes the number as it comes) and a change of -1, which is
    above -3, in allocation mode: the call returns and changes both
    quantities. *)
Lemma adjustQuantity_allocation_below_zero_not_refused :
  let w := fst (addItem clock0 (sampleData (-3)) world0) in
  ∃ r, items w = [r]
    ∧ -1 > quantityAvailable r
    ∧ ∃ w' r', adjustQuantity clock0 (item_id r) (-1) true w = (w', Return r')
        ∧ items w' = [r']
        ∧ quantityAvailable r' = -2
        ∧ quantityAllocated r' = -1.
Proof.
  intros w. exists (addedRecord (-3)).
  split; [by vm_compute |]. split; [by vm_compute |].
  eexists _, _. split; [vm_compute; reflexivity |]. by split_and!.
Qed.

(** C2, amended: in allocation mode a positive change above the available
    quantity is refused with [InsufficientStock], and the world is the one
    before the call: the record keeps both quantities and the time of its
    last update.  (A change above the available quantity is positive
    whenever the available quantity is not negative.) *)
Theorem adjustQuantity_allocation_refused (clock : nat → Z) (w : World)
    (i : nat) (r : LVInventoryItem) (delta : Z) :
  resolves (items w) i r →
  delta > 0 → delta > quantityAvailable r →
  adjustQuantity clock (item_id r) delta true w = (w, Throw InsufficientStock)
  ∧ items w !! i = Some r.
Proof.
  intros Hr Hpos Hgt. split; [| by destruct Hr].
  apply resolves_find in Hr.
  apply (adjustQuantity_insufficient clock _ _ _ _ _ Hr); lia.
Qed.

Lemma adjustQuantity_allocation_refused_witness :
  let r := sampleRecord "17" 3 4 1 10 in
  adjustQuantity clock0 (item_id r) 4 true (sampleWorld [r])
    = (sampleWorld [r], Throw InsufficientStock)
  ∧ items (sampleWorld [r]) !! 0%nat = Some r.
Proof.
  intros r.
  apply (adjustQuantity_allocation_refused clock0 (sampleWorld [r]) 0 r 4).
  - split; [reflexivity | intros j y _ Hj; lia].
  - lia.
  - simpl. lia.
Defined.

(** Whatever the calls, the available quantity of no record falls below
    zero. *)
Lemma adjustQuantity_keeps_available_nonneg (clock : nat → Z) itemId delta mode w :
  Forall (λ r, 0 <= quantityAvailable r) (items w) →
  Forall (λ r, 0 <= quantityAvailable r)
         (items (fst (adjustQuantity clock itemId delta mode w))).
Proof.
  intros Hall.
  destruct (list_find (λ item, item_id item = itemId) (items w))
    as [[i r] |] eqn:Hfind.
  - assert (0 <= quantityAvailable r) as Hr.
    { apply list_find_Some in Hfind as (Hi & _ & _).
      by eapply (Forall_lookup_1 _ _ _ _ Hall Hi). }
    destruct mode.
    + destruct (decide (delta > 0 ∧ quantityAvailable r < delta)) as [[? ?] | Hok].
      * by erewrite adjustQuantity_insufficient.
      * erewrite adjustQuantity_allocation by done. simpl.
        apply Forall_insert; [done |]. simpl. lia.
    + erewrite adjustQuantity_stock by done. simpl.
      apply Forall_insert; [done |]. simpl. lia.
  - by rewrite adjustQuantity_not_found.
Qed.

(** X1: after any sequence of calls, in either mode and with any changes, no
    record of a store that had no negative available quantity has one. *)
Lemma runCalls_keeps_available_nonneg (clock : nat → Z) (calls : list Call) (w : World) :
  Forall (λ r, 0 <= quantityAvailable r) (items w) →
  Forall (λ r, 0 <= quantityAvailable r) (items (runCalls clock calls w)).
Proof.
  revert w. induction calls as [|c calls IH]; intros w Hall; simpl; [done |].
  apply IH. by apply adjustQuantity_keeps_available_nonneg.
Qed.

Lemma runCalls_keeps_available_nonneg_witness :
  Forall (λ r, 0 <= quantityAvailable r)
    (items (runCalls clock0
              [mkCall (Some "17") (-5) false; mkCall (Some "18") 7 true;
               mkCall (Some "18") (-20) true; mkCall (Some "19") 1 false]
              (sampleWorld [sampleRecord "17" 3 4 1 10; sampleRecord "18" 6 0 1 10]))).
Proof.
  apply runCalls_keeps_available_nonneg.
  repeat constructor; simpl; lia.
Defined.

(** C1 at the failing input: a record added with 5 available and nothing
    allocated; one call in allocation mode with a change of -5 (the form's
    "Return from Project" of 5) returns and leaves -5 allocated. *)
Theorem adjustQuantity_return_leaves_allocated_negative :
  let w := fst (addItem clock0 (sampleData 5) world0) in
  ∃ r, items w = [r]
    ∧ quantityAvailable r = 5
    ∧ quantityAllocated r = 0
    ∧ ∃ r', items (runCalls clock0 [mkCall (item_id r) (-5) true] w) = [r']
        ∧ quantityAvailable r' = 10
        ∧ quantityAllocated r' = -5.
Proof.
  intros w. exists (addedRecord 5). split_and!; [by vm_compute.. |].
  eexists. split; [vm_compute; reflexivity |]. by split.
Qed.

(** ** Matching a line item *)

Lemma lineMatches_spec (lineItem : LineItem) (item : LVInventoryItem) :
  lineMatches lineItem item = true ↔ matchesBySpec lineItem item.
Proof.
  unfold lineMatches, matchesBySpec, containsIgnoringCase.
  rewrite orb_true_iff, includes_spec.
  apply or_iff_compat_r.
  destruct (part_number lineItem) as [pn |].
  - rewrite andb_true_iff, negb_true_iff, bool_decide_eq_false, bool_decide_eq_true.
    split.
    + intros [Hne Heq]. by exists pn.
    + intros (pn' & [= <-] & Hne & Heq). done.
  - split; [done | intros (pn & Hpn & _); discriminate Hpn].
Qed.

(** C4: the matcher returns the record at index [i] exactly when that
    record matches by rule (a) or (b) and no record before it in the array
    does; it returns nothing exactly when no record of the array matches. *)
Theorem findMatchingInventoryItem_first_match (lineItem : LineItem)
    (l : list LVInventoryItem) :
  (∀ i r, findMatchingInventoryItem lineItem l = Some (i, r) ↔
      l !! i = Some r
      ∧ matchesBySpec lineItem r
      ∧ ∀ j y, l !! j = Some y → (j < i)%nat → ¬ matchesBySpec lineItem y)
  ∧ (findMatchingInventoryItem lineItem l = None ↔
      ∀ r, r ∈ l → ¬ matchesBySpec lineItem r).
Proof.
  unfold findMatchingInventoryItem. split.
  - intros i r. rewrite list_find_Some, lineMatches_spec.
    do 2 apply and_iff_compat_l.
    split; intros H j y Hj Hlt; specialize (H j y Hj Hlt);
      by rewrite lineMatches_spec in *.
  - rewrite list_find_None, Forall_forall.
    split; intros H r Hr; specialize (H r Hr); by rewrite lineMatches_spec in *.
Qed.

(** ** Reconciliation *)

(** C9: on a store that is not empty, a line item without part number
    and with the empty description is matched to the first record; the line
    item never adds a record, and when the order is approved or closed and
    the quantity change is positive the change goes to the first record, in
    stock mode. *)
Theorem empty_description_matches_first_record (clock : nat → Z)
    (po : PurchaseOrder) (projectId : string) (updatedItems : list IdValue)
    (lineItem : LineItem) (w : World) (r : LVInventoryItem)
    (rest : list LVInventoryItem) :
  part_number lineItem = None →
  line_description lineItem = "" →
  items w = r :: rest →
  findMatchingInventoryItem lineItem (items w) = Some (0%nat, r)
  ∧ ∃ w' updatedItems',
      processLineItem clock po projectId updatedItems lineItem w
        = (w', Return updatedItems')
      ∧ length (items w') = length (items w)
      ∧ items w' =
          if approvedOrClosed po
             && bool_decide (quantity lineItem - or_zero (received_quantity lineItem) > 0)
          then stocked (clock (clockReads w))
                 (quantity lineItem - or_zero (received_quantity lineItem)) r :: rest
          else r :: rest.
Proof.
  intros Hpn Hdesc Hitems.
  assert (findMatchingInventoryItem lineItem (items w) = Some (0%nat, r)) as Hfind.
  { rewrite Hitems. unfold findMatchingInventoryItem. simpl.
    rewrite decide_True; [done |].
    unfold lineMatches. rewrite Hdesc. simpl. rewrite includes_empty.
    apply orb_true_r. }
  split; [exact Hfind |].
  unfold processLineItem, bind, getItems. rewrite Hfind.
  destruct (approvedOrClosed po); simpl.
  - case_bool_decide as Hpos.
    + rewrite (adjustQuantity_stock clock _ _ w 0%nat r)
        by (rewrite Hitems; simpl; by rewrite decide_True).
      eexists _, _. split; [reflexivity |]. simpl. by rewrite Hitems.
    + eexists _, _. split; [reflexivity |]. by rewrite Hitems.
  - eexists _, _. split; [reflexivity |]. by rewrite Hitems.
Qed.

Lemma empty_description_matches_first_record_witness :
  let r := sampleRecord "17" 3 4 1 10 in
  let rest := [sampleRecord "18" 6 0 1 10] in
  let lineItem := sampleLine "" 5 None in
  findMatchingInventoryItem lineItem (items (sampleWorld (r :: rest)))
    = Some (0%nat, r)
  ∧ ∃ w' updatedItems',
      processLineItem clock0 (sampleOrder "Closed") "P1" [] lineItem
        (sampleWorld (r :: rest)) = (w', Return updatedItems')
      ∧ length (items w') = 2%nat
      ∧ items w' = stocked (clock0 0) 5 r :: rest.
Proof.
  intros r rest lineItem.
  exact (empty_description_matches_first_record clock0 (sampleOrder "Closed")
           "P1" [] lineItem (sampleWorld (r :: rest)) r rest
           eq_refl eq_refl eq_refl).
Defined.

Lemma isLowVoltagePO_cable_title (po : PurchaseOrder) (t : string) :
  title po = Some t → containsIgnoringCase t "Cable" → isLowVoltagePO po = true.
Proof.
  intros Ht Hc. unfold isLowVoltagePO. apply existsb_exists.
  exists "cable". split; [unfold lvKeywords; simpl; tauto |].
  rewrite Ht. simpl. apply orb_true_iff. left. by apply includes_spec.
Qed.

(** C3: one purchase order in status Closed whose title contains the
    keyword Cable, with one line item of quantity 10, received quantity 2,
    no part number and description "Cat6 cable", reconciled against the
    empty store: the run returns, and the store then holds exactly one
    record, with 10 available, category Cable and reorder threshold 2. *)
Theorem syncWithPurchaseOrders_creates_cable_record (clock : nat → Z)
    (procoreApi : ProcoreApi) (projectId : string) (po : PurchaseOrder)
    (lineItem : LineItem) (w : World) :
  purchase_orders procoreApi projectId = Return [po] →
  line_items procoreApi projectId (po_id po) = Return [lineItem] →
  status po = "Closed" →
  (∃ t, title po = Some t ∧ containsIgnoringCase t "Cable") →
  quantity lineItem = 10 →
  received_quantity lineItem = Some 2 →
  part_number lineItem = None →
  line_description lineItem = "Cat6 cable" →
  items w = [] →
  ∃ w' r,
    syncWithPurchaseOrders clock procoreApi projectId w = (w', Return 1)
    ∧ items w' = [r]
    ∧ quantityAvailable r = 10
    ∧ category r = "Cable"
    ∧ reorderThreshold r = 2.
Proof.
  intros Hpos Hlines Hstatus (t & Ht & Hc) Hq Hrq Hpn Hdesc Hitems.
  pose proof (isLowVoltagePO_cable_title po t Ht Hc) as Hlv.
  unfold syncWithPurchaseOrders, bind, request. rewrite Hpos. simpl.
  unfold bind, processPurchaseOrder. rewrite Hlv. simpl.
  unfold bind, request. rewrite Hlines. simpl.
  unfold bind, processLineItem, bind, getItems. rewrite Hitems. simpl.
  unfold approvedOrClosed. rewrite Hstatus. simpl.
  eexists _, _. split; [reflexivity |]. simpl.
  rewrite Hitems, Hq, Hdesc. simpl. by split_and!.
Qed.

Lemma syncWithPurchaseOrders_creates_cable_record_witness :
  ∃ w' r,
    syncWithPurchaseOrders clock0
      (sampleApi (sampleOrder "Closed") (sampleLine "Cat6 cable" 10 (Some 2)))
      "P1" world0 = (w', Return 1)
    ∧ items w' = [r]
    ∧ quantityAvailable r = 10
    ∧ category r = "Cable"
    ∧ reorderThreshold r = 2.
Proof.
  apply (syncWithPurchaseOrders_creates_cable_record clock0
           (sampleApi (sampleOrder "Closed") (sampleLine "Cat6 cable" 10 (Some 2)))
           "P1" (sampleOrder "Closed") (sampleLine "Cat6 cable" 10 (Some 2)) world0);
    try reflexivity.
  exists "Cable for level 2". split; [reflexivity |].
  by exists "", " for level 2".
Defined.

(** ** Searching and reporting *)

Section ReportFacts.

Variable inherited : string → JSValue.
Variable dateToString : Z → string.

Lemma searchItems_no_criteria (l : list LVInventoryItem) :
  searchItems inherited dateToString l ∅ = l.
Proof.
  unfold searchItems. induction l as [|item l IH]; [done |].
  rewrite filter_cons_True by apply map_Forall_empty. by rewrite IH.
Qed.

Lemma fold_left_sumOver (f : LVInventoryItem → Z) (l : list LVInventoryItem) (acc : Z) :
  fold_left (λ sum item, sum + f item) l acc = acc + sumOver f l.
Proof.
  revert acc. induction l as [|item l IH]; intros acc; simpl; [lia |].
  rewrite IH. lia.
Qed.

(** C8: the report's total value is the sum, over the records that pass
    the filter, of cost times total quantity; over three records of costs
    10, 20, 30 and total quantities 1, 2, 1 it is 80. *)
Theorem generateInventoryReport_totalValue (l : list LVInventoryItem)
    (filters : gmap string string) :
  totalValue (generateInventoryReport inherited dateToString l filters)
    = sumOver (λ item, cost item * totalQuantity item)
              (searchItems inherited dateToString l filters)
  ∧ (∀ r1 r2 r3,
       cost r1 = 10 → cost r2 = 20 → cost r3 = 30 →
       totalQuantity r1 = 1 → totalQuantity r2 = 2 → totalQuantity r3 = 1 →
       totalValue (generateInventoryReport inherited dateToString [r1; r2; r3] ∅) = 80).
Proof.
  assert (∀ l' f, totalValue (generateInventoryReport inherited dateToString l' f)
            = sumOver (λ item, cost item * totalQuantity item)
                      (searchItems inherited dateToString l' f)) as Hsum.
  { intros l' f. unfold generateInventoryReport. simpl.
    rewrite fold_left_sumOver. case_bool_decide as Hsize; [done |].
    assert (f = ∅) as -> by (apply map_size_empty_iff; lia).
    by rewrite searchItems_no_criteria. }
  split; [apply Hsum |].
  intros r1 r2 r3 Hc1 Hc2 Hc3 Ht1 Ht2 Ht3.
  rewrite Hsum, searchItems_no_criteria. simpl.
  rewrite Hc1, Hc2, Hc3, Ht1, Ht2, Ht3. done.
Qed.

(** C10: when the criteria hold a key whose value in a record is falsy
    (empty, zero, [null], [undefined], [false]), whatever the text asked
    for under that key, the search leaves the record out, and so does the
    report made with these criteria as its filter. *)
Theorem searchItems_excludes_falsy_field (l : list LVInventoryItem)
    (criteria : gmap string string) (k v : string) (item : LVInventoryItem) :
  criteria !! k = Some v →
  truthy (getProperty inherited item k) = false →
  (item ∉ searchItems inherited dateToString l criteria)
  ∧ (item ∉ reportItems (generateInventoryReport inherited dateToString l criteria)).
Proof.
  intros Hk Hfalsy.
  assert (item ∉ searchItems inherited dateToString l criteria) as Hsearch.
  { unfold searchItems. rewrite list_elem_of_filter. intros [Hall _].
    specialize (Hall k v Hk). unfold criterionHolds in Hall.
    rewrite Hfalsy in Hall. discriminate Hall. }
  split; [exact Hsearch |].
  unfold generateInventoryReport. simpl.
  rewrite bool_decide_eq_true_2.
  - unfold toJSON. by rewrite list_fmap_id.
  - assert (size criteria ≠ 0%nat); [| lia].
    rewrite map_size_empty_iff. intros ->. by rewrite lookup_empty in Hk.
Qed.

End ReportFacts.

Lemma generateInventoryReport_totalValue_witness :
  totalValue
    (generateInventoryReport (λ _, VUndefined) pretty
       [sampleRecord "1" 1 0 0 10; sampleRecord "2" 1 1 0 20;
        sampleRecord "3" 0 1 0 30] ∅) = 80.
Proof.
  apply (generateInventoryReport_totalValue (λ _, VUndefined) pretty [] ∅);
    reflexivity.
Defined.

Lemma searchItems_excludes_falsy_field_witness :
  let r := sampleRecord "17" 3 0 1 10 in
  let l := [r; sampleRecord "18" 6 10 1 10] in
  let criteria : gmap string string := {[ "quantityAllocated" := "0" ]} in
  (r ∉ searchItems (λ _, VUndefined) pretty l criteria)
  ∧ (r ∉ reportItems (generateInventoryReport (λ _, VUndefined) pretty l criteria)).
Proof.
  intros r l criteria.
  apply (searchItems_excludes_falsy_field (λ _, VUndefined) pretty l criteria
           "quantityAllocated" "0" r).
  - by vm_compute.
  - reflexivity.
Defined.

(** * Further properties of the manager *)

(** ** Ids *)

Lemma pretty_N_go_nonempty (x : N) (s : string) : s ≠ "" → pretty_N_go x s ≠ "".
Proof.
  revert s. induction (N.lt_wf_0 x) as [x _ IH]; intros s Hs.
  assert (x = 0 ∨ 0 < x)%N as [-> | Hpos] by lia.
  - by rewrite pretty_N_go_0.
  - rewrite pretty_N_go_step by done. apply IH; [by apply N.div_lt | done].
Qed.

Lemma pretty_Z_nonempty (z : Z) : pretty z ≠ "".
Proof.
  destruct z as [| p | p]; [done | | done].
  unfold pretty, pretty_Z, pretty, pretty_positive, pretty, pretty_N.
  rewrite decide_False by done.
  rewrite pretty_N_go_step by lia. by apply pretty_N_go_nonempty.
Qed.

Lemma resolves_insert (l : list LVInventoryItem) i r r' :
  resolves l i r → item_id r' = item_id r → resolves (<[i := r']> l) i r'.
Proof.
  intros [Hi Hfirst] Hid. split.
  - apply list_lookup_insert_eq. by eapply lookup_lt_Some.
  - intros j y Hj Hlt. rewrite list_lookup_insert_ne in Hj by lia.
    rewrite Hid. by eapply Hfirst.
Qed.

Lemma find_unknown_id (l : list LVInventoryItem) (itemId : option string) :
  (∀ r, r ∈ l → item_id r ≠ itemId) →
  list_find (λ item, item_id item = itemId) l = None.
Proof. intros H. apply list_find_None, Forall_forall. exact H. Qed.

Lemma or_empty_orElse (u : option string) (x : string) :
  or_empty (orElse u (Some x)) = default x u.
Proof. by destruct u. Qed.

Lemma or_zero_orElse (u : option Z) (x : Z) :
  or_zero (orElse u (Some x)) = default x u.
Proof. by destruct u. Qed.

Lemma default_orElse {A} (d : A) (u : option A) (x : A) :
  default d (orElse u (Some x)) = default x u.
Proof. by destruct u. Qed.

Lemma or_null_orElse (u base : option string) :
  or_null (orElse u base)
  = match u with Some s => or_null (Some s) | None => or_null base end.
Proof. by destruct u. Qed.

Lemma or_null_constructed (x : option string) : x ≠ Some "" → or_null x = x.
Proof.
  intros Hx. destruct x as [s |]; [| done]. simpl.
  by rewrite decide_False by congruence.
Qed.

Section ManagerFacts.

Variable clock : nat → Z.

(** X3: an id that no record of the store carries: updating, deleting and
    adjusting each throw [NotFound] for it, and the world is the one before
    the call. *)
Theorem unknown_id_is_not_found (w : World) (itemId : option string)
    (updates : ItemData) (delta : Z) (mode : bool) :
  (∀ r, r ∈ items w → item_id r ≠ itemId) →
  updateItem clock itemId updates w = (w, Throw (NotFound itemId))
  ∧ deleteItem itemId w = (w, Throw (NotFound itemId))
  ∧ adjustQuantity clock itemId delta mode w = (w, Throw (NotFound itemId)).
Proof.
  intros Hnone%find_unknown_id. split_and!.
  - unfold updateItem, bind, getItems. by rewrite Hnone.
  - unfold deleteItem, bind, getItems. by rewrite Hnone.
  - by apply adjustQuantity_not_found.
Qed.

Lemma updateItem_run (w : World) i r (updates : ItemData) :
  resolves (items w) i r → constructed r →
  updateItem clock (item_id r) updates w =
    (set_items (<[i := updated (clock (clockReads w)) r updates]> (items w)) (tick w),
     Return (updated (clock (clockReads w)) r updates)).
Proof.
  intros Hr%resolves_find [Hid Hpid].
  unfold updateItem, bind, getItems. rewrite Hr. simpl.
  change (mkWorld (items w) (S (clockReads w)) (localStorage w)) with (tick w).
  assert (newLVInventoryItem clock
            (withLastUpdated (clock (clockReads w)) (spread (dataOf (toJSON r)) updates))
            (tick w)
          = (tick w, Return (updated (clock (clockReads w)) r updates))) as ->; [| done].
  unfold newLVInventoryItem, bind, ret, updated, toJSON. simpl.
  rewrite !or_empty_orElse, !or_zero_orElse, !or_null_orElse, default_orElse.
  rewrite (or_null_constructed _ Hid), (or_null_constructed _ Hpid).
  by destruct (d_createdAt updates).
Qed.

(** X4: [updateItem] replaces the record that the id resolves to by a fresh
    record: every property of the update is stored as given, without any
    check (a negative quantity, another id), every other field is kept,
    the creation time included, and the time of the last update is the
    clock reading.  The array keeps its length and every other record; an
    update without properties changes the time of the last update only. *)
Theorem updateItem_replaces_resolved_record (w : World) (i : nat)
    (r : LVInventoryItem) (updates : ItemData) :
  resolves (items w) i r → constructed r →
  ∃ w' r',
    updateItem clock (item_id r) updates w = (w', Return r')
    ∧ r' = updated (clock (clockReads w)) r updates
    ∧ items w' = <[i := r']> (items w)
    ∧ length (items w') = length (items w)
    ∧ (∀ j, j ≠ i → items w' !! j = items w !! j)
    ∧ (updates = noUpdates → r' = set_lastUpdated (clock (clockReads w)) r)
    ∧ (d_id updates = None → resolves (items w') i r').
Proof.
  intros Hr Hc. eexists _, _. split; [exact (updateItem_run w i r updates Hr Hc) |].
  split; [done |]. simpl. split; [done |].
  split; [by rewrite length_insert |].
  split; [intros j Hj; by rewrite list_lookup_insert_ne |].
  split.
  - intros ->. by destruct r.
  - intros Hid. apply (resolves_insert _ _ r); [done |]. unfold updated. simpl.
    by rewrite Hid.
Qed.

Lemma deleteItem_run (w : World) i r :
  resolves (items w) i r →
  deleteItem (item_id r) w = (set_items (delete i (items w)) w, Return true).
Proof.
  intros Hr%resolves_find. unfold deleteItem, bind, getItems. by rewrite Hr.
Qed.

(** X5: [deleteItem] takes out of the array the one record that the id
    resolves to, the first that carries it: the other records stay, in
    their order, and neither the clock nor the browser storage is touched. *)
Theorem deleteItem_removes_resolved_record (w : World) (i : nat)
    (r : LVInventoryItem) :
  resolves (items w) i r →
  ∃ w',
    deleteItem (item_id r) w = (w', Return true)
    ∧ items w' = take i (items w) ++ drop (S i) (items w)
    ∧ S (length (items w')) = length (items w)
    ∧ clockReads w' = clockReads w
    ∧ localStorage w' = localStorage w.
Proof.
  intros Hr. eexists. split; [exact (deleteItem_run w i r Hr) |]. simpl.
  destruct Hr as [Hi _]. apply lookup_lt_Some in Hi.
  split; [by rewrite delete_take_drop |].
  split; [| done]. rewrite length_delete by (by apply lookup_lt_is_Some). lia.
Qed.

Lemma NoDup_delete_id_gone (l : list LVInventoryItem) i r :
  NoDup (item_id <$> l) → l !! i = Some r →
  ∀ x, x ∈ delete i l → item_id x ≠ item_id r.
Proof.
  intros Hnd Hi x [j Hj]%list_elem_of_lookup Heq.
  assert (∀ k, l !! k = Some x → k = i) as Hsame.
  { intros k Hk. eapply NoDup_lookup; [exact Hnd | |]; rewrite list_lookup_fmap.
    - by rewrite Hk.
    - rewrite Hi. simpl. by rewrite Heq. }
  destruct (decide (j < i)%nat) as [Hlt | Hge].
  - rewrite list_lookup_delete_lt in Hj by done. apply Hsame in Hj. lia.
  - rewrite list_lookup_delete_ge in Hj by lia. apply Hsame in Hj. lia.
Qed.

(** X6: in a store whose ids are pairwise distinct, a deleted record is gone
    for good: after [deleteItem] of its id, adjusting, updating and
    deleting by that id each throw [NotFound]. *)
Theorem deleteItem_then_not_found (w : World) (r : LVInventoryItem)
    (updates : ItemData) (delta : Z) (mode : bool) :
  NoDup (item_id <$> items w) → r ∈ items w →
  ∃ w',
    deleteItem (item_id r) w = (w', Return true)
    ∧ adjustQuantity clock (item_id r) delta mode w' = (w', Throw (NotFound (item_id r)))
    ∧ updateItem clock (item_id r) updates w' = (w', Throw (NotFound (item_id r)))
    ∧ deleteItem (item_id r) w' = (w', Throw (NotFound (item_id r))).
Proof.
  intros Hnd [i Hi]%list_elem_of_lookup.
  pose proof (NoDup_resolves _ _ _ Hnd Hi) as Hr.
  eexists. split; [exact (deleteItem_run w i r Hr) |].
  assert (list_find (λ item, item_id item = item_id r)
            (items (set_items (delete i (items w)) w)) = None) as Hnone.
  { apply find_unknown_id. simpl. by apply NoDup_delete_id_gone. }
  split_and!.
  - by apply adjustQuantity_not_found.
  - unfold updateItem, bind, getItems. by rewrite Hnone.
  - unfold deleteItem, bind, getItems. by rewrite Hnone.
Qed.

Lemma addItem_run (w : World) (data : ItemData) :
  addItem clock data w =
    (mkWorld (items w ++ [added clock (clockReads w) data])
       (S (S (S (clockReads w)))) (localStorage w),
     Return (added clock (clockReads w) data)).
Proof.
  unfold addItem, bind, newDate, newLVInventoryItem, bind, ret, getItems,
    putItems, set_items, added. simpl.
  rewrite decide_False by apply pretty_Z_nonempty. done.
Qed.

(** X7: [addItem] appends one record and leaves the others as they are; its
    id is the rendering of the clock, whatever id the data carry, and the
    quantities are those of the data, unchecked.  When no record carries
    that id yet, the id resolves to the new record and pairwise distinct
    ids stay pairwise distinct. *)
Theorem addItem_appends_record (w : World) (data : ItemData) :
  ∃ w' r,
    addItem clock data w = (w', Return r)
    ∧ items w' = items w ++ [r]
    ∧ localStorage w' = localStorage w
    ∧ item_id r = Some (pretty (clock (clockReads w)))
    ∧ quantityAvailable r = or_zero (d_quantityAvailable data)
    ∧ quantityAllocated r = or_zero (d_quantityAllocated data)
    ∧ ((∀ x, x ∈ items w → item_id x ≠ item_id r) →
         resolves (items w') (length (items w)) r
         ∧ (NoDup (item_id <$> items w) → NoDup (item_id <$> items w'))).
Proof.
  eexists _, _. split; [apply addItem_run |]. simpl.
  split_and!; [done.. |]. intros Hfresh. split.
  - split.
    + by rewrite lookup_app_r, Nat.sub_diag.
    + intros j y Hj Hlt. rewrite lookup_app_l in Hj by done.
      apply Hfresh. by eapply list_elem_of_lookup_2.
  - intros Hnd. rewrite fmap_app. apply NoDup_app. split; [done |].
    split; [| apply NoDup_singleton].
    intros o [x [-> Hx]]%list_elem_of_fmap. simpl.
    rewrite list_elem_of_singleton. by apply Hfresh.
Qed.

(** X8: adding a record and deleting by the id that [addItem] returned gives
    back the array as it was, provided no record carried that id. *)
Theorem addItem_then_deleteItem (w : World) (data : ItemData) :
  (∀ x, x ∈ items w → item_id x ≠ Some (pretty (clock (clockReads w)))) →
  ∃ w1 r w2,
    addItem clock data w = (w1, Return r)
    ∧ deleteItem (item_id r) w1 = (w2, Return true)
    ∧ items w2 = items w.
Proof.
  intros Hfresh. eexists _, _, _. split; [apply addItem_run |].
  assert (resolves (items w ++ [added clock (clockReads w) data])
            (length (items w)) (added clock (clockReads w) data)) as Hr.
  { split.
    - by rewrite lookup_app_r, Nat.sub_diag.
    - intros j y Hj Hlt. rewrite lookup_app_l in Hj by done.
      apply Hfresh. by eapply list_elem_of_lookup_2. }
  split; [exact (deleteItem_run (mkWorld _ _ _) _ _ Hr) |]. simpl.
  rewrite delete_take_drop, take_app_length.
  rewrite drop_app_ge by lia.
  replace (S (length (items w)) - length (items w))%nat with 1%nat by lia.
  simpl. by rewrite app_nil_r.
Qed.

(** X9: the id is a time stamp: when a record of the store carries the id
    that a new record gets (two additions within one clock value), the
    id that [addItem] returned resolves to the older record, and deleting
    by it removes the older record and keeps the new one. *)
Theorem addItem_colliding_id (w : World) (data : ItemData) (i : nat)
    (old : LVInventoryItem) :
  resolves (items w) i old →
  item_id old = Some (pretty (clock (clockReads w))) →
  ∃ w1 r w2,
    addItem clock data w = (w1, Return r)
    ∧ resolves (items w1) i old
    ∧ item_id r = item_id old
    ∧ deleteItem (item_id r) w1 = (w2, Return true)
    ∧ items w2 = delete i (items w) ++ [r].
Proof.
  intros [Hi Hfirst] Hid. eexists _, _, _. split; [apply addItem_run |].
  assert (resolves (items w ++ [added clock (clockReads w) data]) i old) as Hr.
  { split.
    - by apply lookup_app_l_Some.
    - intros j y Hj Hlt. apply (Hfirst j y); [| done].
      rewrite lookup_app_l in Hj; [done |].
      apply lookup_lt_Some in Hi. lia. }
  split; [exact Hr |]. split; [by rewrite Hid |].
  split.
  - replace (item_id (added clock (clockReads w) data)) with (item_id old)
      by (by rewrite Hid).
    exact (deleteItem_run (mkWorld _ _ _) _ _ Hr).
  - simpl. apply lookup_lt_Some in Hi.
    rewrite !delete_take_drop, take_app_le, drop_app_le, app_assoc by lia. done.
Qed.

End ManagerFacts.

(** ** Adjustments in sequence *)

Lemma allocated_undo (t1 t2 delta : Z) (r : LVInventoryItem) :
  allocated t2 (- delta) (allocated t1 delta r) = set_lastUpdated t2 r.
Proof. destruct r. cbv -[Z.add Z.sub Z.opp]. f_equal; lia. Qed.

Lemma allocated_available (t delta : Z) (r : LVInventoryItem) :
  quantityAvailable (allocated t delta r) = quantityAvailable r - delta.
Proof. done. Qed.

Lemma stocked_available (t delta : Z) (r : LVInventoryItem) :
  quantityAvailable (stocked t delta r) = Z.max 0 (quantityAvailable r + delta).
Proof. done. Qed.

Section AdjustSequences.

Variable clock : nat → Z.

Lemma find_after_adjust (w : World) i r r' :
  resolves (items w) i r → item_id r' = item_id r →
  list_find (λ item, item_id item = item_id r)
    (items (set_items (<[i := r']> (items w)) (tick w))) = Some (i, r').
Proof.
  intros Hr Hid. rewrite <- Hid. apply resolves_find.
  by apply (resolves_insert _ _ r).
Qed.

(** X10, for integer quantities and an integer change: allocating and then
    returning the same quantity: when the available quantity is not
    negative and covers the change, both calls return, and the record has
    the two quantities it had; only the time of its last update differs,
    and no other record changes. *)
Theorem allocate_then_return_restores (w : World) (i : nat)
    (r : LVInventoryItem) (delta : Z) :
  resolves (items w) i r →
  0 <= quantityAvailable r → delta <= quantityAvailable r →
  ∃ w1 r1 w2 r2,
    adjustQuantity clock (item_id r) delta true w = (w1, Return r1)
    ∧ adjustQuantity clock (item_id r) (- delta) true w1 = (w2, Return r2)
    ∧ r2 = set_lastUpdated (clock (S (clockReads w))) r
    ∧ items w2 = <[i := r2]> (items w).
Proof.
  intros Hr Hnn Hle.
  pose proof (proj1 (resolves_find _ _ _) Hr) as Hfind.
  pose proof (find_after_adjust w i r
                (allocated (clock (clockReads w)) delta r) Hr eq_refl) as Hfind1.
  eexists _, _, _, _.
  split; [apply (adjustQuantity_allocation clock _ _ _ _ _ Hfind); lia |].
  split.
  - apply (adjustQuantity_allocation clock _ _ _ _ _ Hfind1).
    rewrite allocated_available. lia.
  - split; [apply allocated_undo |].
    cbn [items set_items]. by rewrite list_insert_insert_eq.
Qed.

(** X11, for integer quantities and an integer change: stock adjustments do
    not commute: with nothing negative, adding a quantity and then
    removing it gives back the available quantity; removing it first and
    then adding it leaves the larger of the available quantity and the
    change. *)
Theorem stock_add_remove_order (w : World) (i : nat) (r : LVInventoryItem)
    (delta : Z) :
  resolves (items w) i r →
  0 <= quantityAvailable r → 0 <= delta →
  (∃ w1 r1 w2 r2,
      adjustQuantity clock (item_id r) delta false w = (w1, Return r1)
      ∧ adjustQuantity clock (item_id r) (- delta) false w1 = (w2, Return r2)
      ∧ items w2 = <[i := r2]> (items w)
      ∧ quantityAvailable r2 = quantityAvailable r)
  ∧ (∃ w1 r1 w2 r2,
      adjustQuantity clock (item_id r) (- delta) false w = (w1, Return r1)
      ∧ adjustQuantity clock (item_id r) delta false w1 = (w2, Return r2)
      ∧ items w2 = <[i := r2]> (items w)
      ∧ quantityAvailable r2 = Z.max (quantityAvailable r) delta).
Proof.
  intros Hr Hnn Hd.
  pose proof (proj1 (resolves_find _ _ _) Hr) as Hfind.
  split.
  - pose proof (find_after_adjust w i r
                  (stocked (clock (clockReads w)) delta r) Hr eq_refl) as Hfind1.
    eexists _, _, _, _.
    split; [apply (adjustQuantity_stock clock _ _ _ _ _ Hfind) |].
    split; [apply (adjustQuantity_stock clock _ _ _ _ _ Hfind1) |].
    split; [cbn [items set_items]; by rewrite list_insert_insert_eq |].
    rewrite !stocked_available. lia.
  - pose proof (find_after_adjust w i r
                  (stocked (clock (clockReads w)) (- delta) r) Hr eq_refl) as Hfind1.
    eexists _, _, _, _.
    split; [apply (adjustQuantity_stock clock _ _ _ _ _ Hfind) |].
    split; [apply (adjustQuantity_stock clock _ _ _ _ _ Hfind1) |].
    split; [cbn [items set_items]; by rewrite list_insert_insert_eq |].
    rewrite !stocked_available. lia.
Qed.

End AdjustSequences.

(** With decimal quantities the two sequences round.  Allocating 1 of 1.2
    available next to 0.4 allocated and returning it leaves
    0.3999999999999999 allocated; adding 0.2 to 0.1 available and removing
    it leaves 0.10000000000000003 available. *)
Lemma allocate_then_return_decimal :
  ∃ item1 item2,
    adjustQuantity64 (mkQuantities 1.2 0.4) 1 true = Some item1
    ∧ adjustQuantity64 item1 (-1) true = Some item2
    ∧ available64 item2 = 1.2%float
    ∧ allocated64 item2 = 0.3999999999999999%float
    ∧ (allocated64 item2 =? 0.4)%float = false.
Proof.
  exists (mkQuantities 0.19999999999999996 1.4),
         (mkQuantities 1.2 0.3999999999999999).
  split_and!; by vm_compute.
Qed.

Lemma stock_add_remove_decimal :
  ∃ item1 item2,
    adjustQuantity64 (mkQuantities 0.1 0) 0.2 false = Some item1
    ∧ adjustQuantity64 item1 (-0.2) false = Some item2
    ∧ available64 item2 = 0.10000000000000003%float
    ∧ (available64 item2 =? 0.1)%float = false.
Proof.
  exists (mkQuantities 0.30000000000000004 0),
         (mkQuantities 0.10000000000000003 0).
  split_and!; by vm_compute.
Qed.

(** ** The reorder list and the report *)

Section ReportCounts.

Variable inherited : string → JSValue.
Variable dateToString : Z → string.

(** X12: the reorder list holds, in the order of the store, exactly the
    records whose available quantity is at or below their threshold, and
    the report without filter counts as low on stock exactly the records
    of that list. *)
Theorem getItemsNeedingReorder_lists_low_stock (l : list LVInventoryItem) :
  (∀ r, r ∈ getItemsNeedingReorder l ↔
        r ∈ l ∧ quantityAvailable r <= reorderThreshold r)
  ∧ getItemsNeedingReorder l `sublist_of` l
  ∧ lowStockItems (generateInventoryReport inherited dateToString l ∅)
    = Z.of_nat (length (getItemsNeedingReorder l)).
Proof.
  unfold getItemsNeedingReorder. split_and!.
  - intros r. rewrite list_elem_of_filter. unfold needsReorder.
    rewrite bool_decide_eq_true. tauto.
  - apply sublist_filter.
  - done.
Qed.

(** X13: the counts of a report: the records reported are those the search
    gives for the filter, in the order of the store; their number is
    [totalItems], and the number of records low on stock lies between zero
    and [totalItems]. *)
Theorem generateInventoryReport_counts (l : list LVInventoryItem)
    (filters : gmap string string) :
  let report := generateInventoryReport inherited dateToString l filters in
  reportItems report = searchItems inherited dateToString l filters
  ∧ reportItems report `sublist_of` l
  ∧ totalItems report = Z.of_nat (length (reportItems report))
  ∧ 0 <= lowStockItems report <= totalItems report.
Proof.
  intros report.
  assert (reportItems report = searchItems inherited dateToString l filters) as Hitems.
  { unfold report, generateInventoryReport, toJSON. simpl. rewrite list_fmap_id.
    case_bool_decide as Hsize; [done |].
    assert (filters = ∅) as -> by (apply map_size_empty_iff; lia).
    by rewrite searchItems_no_criteria. }
  split; [exact Hitems |].
  split; [rewrite Hitems; apply sublist_filter |].
  unfold report, generateInventoryReport, toJSON. simpl. rewrite list_fmap_id.
  split; [done |].
  split; [lia |]. apply inj_le, length_filter.
Qed.

End ReportCounts.

(** ** The breakdown by category *)

Lemma addToCategory_lookup (m : gmap string CategoryTotals)
    (item : LVInventoryItem) (c : string) :
  addToCategory m item !! c =
    if decide (category item = c)
    then Some (mkTotals (count (default (mkTotals 0 0) (m !! c)) + 1)
                 (value (default (mkTotals 0 0) (m !! c))
                  + cost item * totalQuantity item))
    else m !! c.
Proof.
  unfold addToCategory. case_decide as Hc.
  - subst c. by rewrite lookup_insert_eq.
  - by rewrite lookup_insert_ne.
Qed.

Lemma fold_addToCategory_lookup (l : list LVInventoryItem)
    (m : gmap string CategoryTotals) (c : string) :
  fold_left addToCategory l m !! c =
    if decide (filter (λ r, category r = c) l = []) then m !! c
    else Some (mkTotals
                 (count (default (mkTotals 0 0) (m !! c))
                  + Z.of_nat (length (filter (λ r, category r = c) l)))
                 (value (default (mkTotals 0 0) (m !! c))
                  + sumOver (λ item, cost item * totalQuantity item)
                      (filter (λ r, category r = c) l))).
Proof.
  revert m. induction l as [| item l IH]; intros m; [done |].
  simpl fold_left. rewrite IH, addToCategory_lookup.
  destruct (decide (category item = c)) as [Hc | Hc].
  - rewrite filter_cons_True by done.
    destruct (decide (item :: filter (λ r, category r = c) l = [])) as [Hnil | _];
      [discriminate Hnil |].
    destruct (decide (filter (λ r, category r = c) l = [])) as [Hrest | Hrest].
    + rewrite Hrest. simpl. do 2 f_equal; lia.
    + simpl. do 2 f_equal; lia.
  - rewrite filter_cons_False by done. done.
Qed.

Lemma categoryCountTotal_add (m : gmap string CategoryTotals) (item : LVInventoryItem) :
  categoryCountTotal (addToCategory m item) = categoryCountTotal m + 1.
Proof.
  unfold categoryCountTotal, addToCategory.
  destruct (m !! category item) as [entry |] eqn:Hentry; simpl.
  - rewrite <- insert_delete_eq.
    rewrite map_fold_insert_L; [| intros; lia | apply lookup_delete_eq].
    rewrite (map_fold_delete_L _ _ (category item) entry m); [simpl; lia | | done].
    intros; lia.
  - rewrite map_fold_insert_L; [simpl; lia | intros; lia | done].
Qed.

Lemma categoryValueTotal_add (m : gmap string CategoryTotals) (item : LVInventoryItem) :
  categoryValueTotal (addToCategory m item)
  = categoryValueTotal m + cost item * totalQuantity item.
Proof.
  unfold categoryValueTotal, addToCategory.
  destruct (m !! category item) as [entry |] eqn:Hentry; simpl.
  - rewrite <- insert_delete_eq.
    rewrite map_fold_insert_L; [| intros; lia | apply lookup_delete_eq].
    rewrite (map_fold_delete_L _ _ (category item) entry m); [simpl; lia | | done].
    intros; lia.
  - rewrite map_fold_insert_L; [simpl; lia | intros; lia | done].
Qed.

Lemma fold_addToCategory_totals (l : list LVInventoryItem)
    (m : gmap string CategoryTotals) :
  categoryCountTotal (fold_left addToCategory l m)
    = categoryCountTotal m + Z.of_nat (length l)
  ∧ categoryValueTotal (fold_left addToCategory l m)
    = categoryValueTotal m + sumOver (λ item, cost item * totalQuantity item) l.
Proof.
  revert m. induction l as [| item l IH]; intros m.
  - simpl. lia.
  - simpl fold_left. destruct (IH (addToCategory m item)) as [-> ->].
    rewrite categoryCountTotal_add, categoryValueTotal_add.
    simpl sumOver. simpl length. lia.
Qed.

Section Breakdown.

Variable inherited : string → JSValue.
Variable dateToString : Z → string.

(** X14: the breakdown of a report holds an entry for a category exactly when
    a reported record has that category; the entry counts those records
    and its value is the sum of their cost times total quantity.  (The
    categories are not names of [Object.prototype] properties.) *)
Theorem byCategory_entry_per_category (l : list LVInventoryItem)
    (filters : gmap string string) (c : string) :
  Forall (λ r, category r ∉ objectPrototypeNames) l →
  let report := generateInventoryReport inherited dateToString l filters in
  let members := filter (λ r, category r = c) (reportItems report) in
  byCategory report !! c =
    if decide (members = []) then None
    else Some (mkTotals (Z.of_nat (length members))
                 (sumOver (λ item, cost item * totalQuantity item) members)).
Proof.
  intros _ report members.
  unfold members, report, generateInventoryReport, toJSON. simpl.
  rewrite list_fmap_id, fold_addToCategory_lookup, lookup_empty. simpl.
  by case_decide.
Qed.

(** X15, for integer costs and quantities: over the categories of the
    breakdown, the counts add up to the report's [totalItems] and the
    values to its [totalValue].  (The categories are not names of
    [Object.prototype] properties.) *)
Theorem byCategory_adds_up_to_totals (l : list LVInventoryItem)
    (filters : gmap string string) :
  Forall (λ r, category r ∉ objectPrototypeNames) l →
  let report := generateInventoryReport inherited dateToString l filters in
  categoryCountTotal (byCategory report) = totalItems report
  ∧ categoryValueTotal (byCategory report) = totalValue report.
Proof.
  intros _ report. unfold report, generateInventoryReport. simpl.
  destruct (fold_addToCategory_totals
              (if bool_decide (0 < size filters)%nat
               then searchItems inherited dateToString l filters else l) ∅)
    as [-> ->].
  rewrite fold_left_sumOver.
  unfold categoryCountTotal, categoryValueTotal. rewrite !map_fold_empty. lia.
Qed.

End Breakdown.

(** With decimal costs the values of the categories need not add up to
    [totalValue]: for three records of total quantity 1 that cost 0.1,
    1.1 and 0.1, the first and the last of one category, [totalValue] is
    1.3000000000000003; the values of the two categories are 0.2 and 1.1
    and add up to 1.3. *)
Lemma byCategory_decimal_values :
  addUp64 [0.1; 1.1; 0.1]%float = 1.3000000000000003%float
  ∧ addUp64 [0.1; 0.1]%float = 0.2%float
  ∧ addUp64 [1.1]%float = 1.1%float
  ∧ addUp64 [addUp64 [0.1; 0.1]; addUp64 [1.1]]%float = 1.3%float
  ∧ (1.3000000000000003 =? 1.3)%float = false.
Proof. split_and!; by vm_compute. Qed.

(** ** The export *)

Lemma occurrences_app (c : ascii) (a b : string) :
  occurrences c (a +:+ b) = (occurrences c a + occurrences c b)%nat.
Proof. induction a as [| x a IH]; simpl; [done | rewrite IH; lia]. Qed.

Lemma splitOn_length (c : ascii) (text : string) :
  length (splitOn c text) = S (occurrences c text).
Proof.
  induction text as [| a rest IH]; simpl; [done |].
  case_decide; simpl; [by rewrite IH |].
  destruct (splitOn c rest); simpl in *; lia.
Qed.

Lemma splitOn_no_occurrence (c : ascii) (text : string) :
  occurrences c text = 0%nat → splitOn c text = [text].
Proof.
  induction text as [| a rest IH]; simpl; [done |].
  case_decide; [done |]. intros Hrest. by rewrite IH.
Qed.

Lemma splitOn_app_separator (c : ascii) (a rest : string) :
  occurrences c a = 0%nat →
  splitOn c (a +:+ String c rest) = a :: splitOn c rest.
Proof.
  induction a as [| x a IH]; simpl.
  - intros _. by rewrite decide_True.
  - case_decide; [done |]. intros Hrest. by rewrite IH.
Qed.

Lemma join_cons (sep : string) (cell next : string) (rest : list string) :
  join sep (cell :: next :: rest) = cell +:+ sep +:+ join sep (next :: rest).
Proof. done. Qed.

Lemma splitOn_join (c : ascii) (cells : list string) :
  cells ≠ [] →
  Forall (λ cell, occurrences c cell = 0%nat) cells →
  splitOn c (join (String c EmptyString) cells) = cells.
Proof.
  induction cells as [| cell [| next rest] IH]; intros Hne Hall; [done | |].
  - simpl. apply splitOn_no_occurrence. by inversion Hall.
  - rewrite join_cons. inversion Hall as [| ? ? Hcell Hrest]; subst.
    change (cell +:+ String c EmptyString +:+ join (String c EmptyString) (next :: rest))
      with (cell +:+ String c (join (String c EmptyString) (next :: rest))).
    rewrite splitOn_app_separator by done. f_equal. by apply IH.
Qed.

Lemma occurrences_join (c : ascii) (sep : string) (cells : list string) :
  occurrences c (join sep cells)
  = (sum_list (occurrences c <$> cells)
     + (length cells - 1) * occurrences c sep)%nat.
Proof.
  induction cells as [| cell [| next rest] IH]; [done | simpl; lia |].
  rewrite join_cons, !occurrences_app, IH. simpl. lia.
Qed.

Lemma sum_occurrences_zero (c : ascii) (cells : list string) :
  Forall (λ cell, occurrences c cell = 0%nat) cells →
  sum_list (occurrences c <$> cells) = 0%nat.
Proof.
  induction 1 as [| cell cells Hcell _ IH]; [done |].
  simpl. rewrite Hcell. exact IH.
Qed.

(** A character that is neither a digit nor the minus sign. *)
Lemma occurrences_pretty_N_go (c : ascii) (x : N) (s : string) :
  (∀ n, pretty_N_char n ≠ c) →
  occurrences c (pretty_N_go x s) = occurrences c s.
Proof.
  intros Hc. revert s. induction (N.lt_wf_0 x) as [x _ IH]; intros s.
  assert (x = 0 ∨ 0 < x)%N as [-> | Hpos] by lia.
  - by rewrite pretty_N_go_0.
  - rewrite pretty_N_go_step by done. rewrite IH by (by apply N.div_lt).
    simpl. by rewrite decide_False by apply Hc.
Qed.

Lemma occurrences_pretty_Z (c : ascii) (z : Z) :
  c ≠ "-"%char → (∀ n, pretty_N_char n ≠ c) →
  occurrences c (pretty z) = 0%nat.
Proof.
  intros Hminus Hdigit.
  assert (∀ p : positive, occurrences c (pretty p) = 0%nat) as Hpos.
  { intros p. unfold pretty, pretty_positive, pretty, pretty_N.
    rewrite decide_False by done. by rewrite occurrences_pretty_N_go. }
  destruct z as [| p | p]; simpl.
  - rewrite decide_False; [done |]. apply (Hdigit 0%N).
  - apply Hpos.
  - rewrite decide_False by congruence. apply Hpos.
Qed.

Lemma comma_not_numeric :
  ","%char ≠ "-"%char ∧ ∀ n, pretty_N_char n ≠ ","%char.
Proof. split; [done |]. intros n. unfold pretty_N_char. by repeat case_match. Qed.

Lemma newline_not_numeric :
  ascii_of_nat 10 ≠ "-"%char ∧ ∀ n, pretty_N_char n ≠ ascii_of_nat 10.
Proof. split; [done |]. intros n. unfold pretty_N_char. by repeat case_match. Qed.

Lemma occurrences_toFixed2 (c : ascii) (n : Z) :
  c ≠ "-"%char → c ≠ "."%char → (∀ n, pretty_N_char n ≠ c) →
  occurrences c (toFixed2 n) = 0%nat.
Proof.
  intros Hminus Hdot Hdigit. unfold toFixed2.
  rewrite occurrences_app, occurrences_pretty_Z by done. simpl.
  rewrite (decide_False (P := "."%char = c)) by congruence.
  rewrite (decide_False (P := "0"%char = c)) by apply (Hdigit 0%N). done.
Qed.

Section ExportFacts.

Variable toLocaleDateString : Z → string.

Lemma occurrences_csvRow (c : ascii) (item : LVInventoryItem) :
  c ≠ "-"%char → c ≠ "."%char → (∀ n, pretty_N_char n ≠ c) →
  sum_list (occurrences c <$> csvRow toLocaleDateString item)
  = sum_list (occurrences c <$> textCells toLocaleDateString item).
Proof.
  intros Hminus Hdot Hdigit. unfold csvRow, textCells. simpl.
  rewrite !occurrences_pretty_Z, occurrences_toFixed2 by done. lia.
Qed.

Lemma csvRow_no_occurrence (c : ascii) (item : LVInventoryItem) :
  c ≠ "-"%char → c ≠ "."%char → (∀ n, pretty_N_char n ≠ c) →
  Forall (λ cell, occurrences c cell = 0%nat) (textCells toLocaleDateString item) →
  Forall (λ cell, occurrences c cell = 0%nat) (csvRow toLocaleDateString item).
Proof.
  intros Hminus Hdot Hdigit Htext. unfold csvRow, textCells in *.
  repeat match goal with
         | H : Forall _ (_ :: _) |- _ => inversion H; clear H; subst
         end.
  repeat constructor; try done;
    by (apply occurrences_pretty_Z || apply occurrences_toFixed2).
Qed.

(** X16: the cells of an exported row are joined as they are, without quotes:
    split at the commas, a row has sixteen columns and as many more as
    there are commas in the texts of the record and in its date; when
    there is none, the columns are the sixteen cells, in the order of the
    header. *)
Theorem csvRow_columns (item : LVInventoryItem) :
  length (splitOn "," (join "," (csvRow toLocaleDateString item)))
    = (16 + sum_list (occurrences "," <$> textCells toLocaleDateString item))%nat
  ∧ (Forall (λ cell, occurrences "," cell = 0%nat)
            (textCells toLocaleDateString item) →
     splitOn "," (join "," (csvRow toLocaleDateString item))
       = csvRow toLocaleDateString item).
Proof.
  destruct comma_not_numeric as [Hminus Hdigit]. split.
  - rewrite splitOn_length, occurrences_join, occurrences_csvRow by done.
    simpl. lia.
  - intros Htext. apply splitOn_join; [done |].
    by apply csvRow_no_occurrence.
Qed.

(** X17: when no text of a record and no date holds a line break, the export
    splits at the line breaks into the header line followed by one row for
    each record, in the order of the store; for the empty store it is the
    header line alone. *)
Theorem exportToCSV_lines (l : list LVInventoryItem) :
  Forall (λ item, Forall (λ cell, occurrences (ascii_of_nat 10) cell = 0%nat)
                         (textCells toLocaleDateString item)) l →
  splitOn (ascii_of_nat 10) (exportToCSV toLocaleDateString l)
    = join "," csvHeaders :: ((λ item, join "," (csvRow toLocaleDateString item)) <$> l)
  ∧ length (splitOn (ascii_of_nat 10) (exportToCSV toLocaleDateString l))
    = S (length l).
Proof.
  intros Hall. destruct newline_not_numeric as [Hminus Hdigit].
  assert (splitOn (ascii_of_nat 10) (exportToCSV toLocaleDateString l)
          = join "," csvHeaders
            :: ((λ item, join "," (csvRow toLocaleDateString item)) <$> l)) as Hsplit.
  { unfold exportToCSV, newline. apply splitOn_join; [done |].
    constructor; [by vm_compute |].
    apply Forall_fmap, Forall_forall. intros item Hitem.
    change (occurrences (ascii_of_nat 10)
              (join "," (csvRow toLocaleDateString item)) = 0%nat).
    rewrite occurrences_join, occurrences_csvRow by done.
    rewrite Forall_forall in Hall. specialize (Hall item Hitem).
    assert (sum_list (occurrences (ascii_of_nat 10)
                        <$> textCells toLocaleDateString item) = 0%nat) as ->.
    { by apply sum_occurrences_zero. }
    simpl. lia. }
  split; [exact Hsplit |]. rewrite Hsplit. simpl. by rewrite length_fmap.
Qed.

End ExportFacts.

(** ** Reconciliation runs *)

Lemma forOf_invariant {A S : Type} (P : World → S → Prop) (Q : World → Prop)
    (body : S → A → Eff S) (l : list A) :
  (∀ acc x w, x ∈ l → P w acc →
     match body acc x w with
     | (w', Return acc') => P w' acc'
     | (w', Throw _) => Q w'
     end) →
  ∀ acc w, P w acc →
    match forOf body l acc w with
    | (w', Return acc') => P w' acc'
    | (w', Throw _) => Q w'
    end.
Proof.
  induction l as [| x l IH]; intros Hbody acc w HP; simpl; [done |].
  unfold bind. specialize (Hbody acc x w (list_elem_of_here _ _) HP) as Hx.
  destruct (body acc x w) as [w1 [acc1 | e]]; [| done].
  apply IH; [| done]. intros acc' y w' Hy. apply Hbody. by right.
Qed.

Section ReconciliationRuns.

Variable clock : nat → Z.
Variable procoreApi : ProcoreApi.




Lemma adjustQuantity_storage itemId delta mode w :
  localStorage (fst (adjustQuantity clock itemId delta mode w)) = localStorage w.
Proof.
  destruct (list_find (λ item, item_id item = itemId) (items w))
    as [[i r] |] eqn:Hfind.
  - destruct mode.
    + destruct (decide (delta > 0 ∧ quantityAvailable r < delta)) as [[? ?] | Hok].
      * by erewrite adjustQuantity_insufficient.
      * by erewrite adjustQuantity_allocation.
    + by erewrite adjustQuantity_stock.
  - by rewrite adjustQuantity_not_found.
Qed.

Lemma adjustQuantity_stock_returns itemId delta w :
  is_Some (list_find (λ item, item_id item = itemId) (items w)) →
  ∃ w' r', adjustQuantity clock itemId delta false w = (w', Return r').
Proof. intros [[i r] Hfind]. erewrite adjustQuantity_stock by done. eauto. Qed.

(** X19: what a run leaves in the browser storage.  A run that throws (a
    request failed) has not written it, whatever it did to the records
    before; a run that returns 0 has changed neither the records nor the
    storage; a run that returns a positive count has written the records
    it ends with, and nothing else, under the key of the project. *)
Theorem syncWithPurchaseOrders_persistence (projectId : string) (w : World) :
  match syncWithPurchaseOrders clock procoreApi projectId w with
  | (w', Throw _) => localStorage w' = localStorage w
  | (w', Return n) =>
      0 <= n
      ∧ (n = 0 → items w' = items w ∧ localStorage w' = localStorage w)
      ∧ (n > 0 → localStorage w'
                 = <["inventory_" +:+ projectId := items w']> (localStorage w))
  end.
Proof.
  unfold syncWithPurchaseOrders, bind, request.
  destruct (purchase_orders procoreApi projectId) as [purchaseOrders | e]; [| done].
  set (P := λ (w' : World) (updated : list IdValue),
              localStorage w' = localStorage w
              ∧ (updated = [] → items w' = items w)).
  set (Q := λ w' : World, localStorage w' = localStorage w).
  assert (∀ s x, setAdd x s ≠ []) as HsetAdd.
  { intros s x. unfold setAdd. case_decide as Hin.
    - intros ->. by apply not_elem_of_nil in Hin.
    - by destruct s. }
  assert (match forOf (processPurchaseOrder clock procoreApi projectId)
                  purchaseOrders [] w with
          | (w', Return acc') => P w' acc'
          | (w', Throw _) => Q w'
          end) as Hloop.
  { apply (forOf_invariant P Q); [| by split].
    intros acc po w1 _ [Hst Hit]. unfold processPurchaseOrder.
    destruct (isLowVoltagePO po); simpl; [| by split].
    unfold bind, request.
    destruct (line_items procoreApi projectId (po_id po)) as [lineItems | e];
      [| done].
    apply (forOf_invariant P Q); [| by split].
    intros acc2 lineItem w2 _ [Hst2 Hit2].
    unfold processLineItem, bind, getItems.
    destruct (findMatchingInventoryItem lineItem (items w2)) as [[i r] |] eqn:Hm.
    - destruct (approvedOrClosed po); [| by split].
      case_bool_decide; [| by split].
      pose proof (adjustQuantity_storage (item_id r)
                    (quantity lineItem - or_zero (received_quantity lineItem))
                    false w2) as Hsame.
      destruct (adjustQuantity_stock_returns (item_id r)
                  (quantity lineItem - or_zero (received_quantity lineItem)) w2)
        as (w3 & r3 & Hrun).
      { apply list_find_Some in Hm as (Hi & _ & _).
        destruct (list_find (λ item, item_id item = item_id r) (items w2))
          as [found |] eqn:Hfind; [done |].
        rewrite list_find_None, Forall_forall in Hfind.
        destruct (Hfind r); [by eapply list_elem_of_lookup_2 | done]. }
      rewrite Hrun in *. simpl in *. split; [congruence |].
      intros Hempty. by destruct (HsetAdd acc2 (IdOf (item_id r))).
    - destruct (approvedOrClosed po); [| by split].
      rewrite addItem_run. simpl. split; [done |].
      intros Hempty. by destruct (HsetAdd acc2 IdUndefined). }
  destruct (forOf (processPurchaseOrder clock procoreApi projectId)
              purchaseOrders [] w) as [w' [updated | e]]; [| exact Hloop].
  destruct Hloop as [Hst Hit]. case_bool_decide as Hlen; simpl.
  - split; [lia |]. split; [lia |]. intros _.
    rewrite Hst. unfold toJSON. by rewrite list_fmap_id.
  - split; [lia |]. split; [| lia]. intros _.
    split; [| done]. apply Hit. destruct updated; [done | simpl in Hlen; lia].
Qed.

End ReconciliationRuns.

Lemma append_empty_r (s : string) : s +:+ "" = s.
Proof.
  induction s as [| a s IH]; [done |].
  change (String a (s +:+ "") = String a s). by rewrite IH.
Qed.

Lemma includes_refl (s : string) : includes s s = true.
Proof.
  apply includes_spec. exists "", "".
  change (s = s +:+ ""). by rewrite append_empty_r.
Qed.

Lemma lineMatches_created (clock : nat → Z) (n : nat) (projectId : string)
    (later earlier : LineItem) :
  lineMatches later (added clock n (createInventoryItemFromPOLine earlier projectId))
  = lineCovers later earlier.
Proof. done. Qed.

Lemma setAdd_idempotent (x : IdValue) (s : list IdValue) :
  setAdd x (setAdd x s) = setAdd x s.
Proof.
  destruct (decide (x ∈ s)) as [Hin | Hin].
  - assert (setAdd x s = s) as ->.
    { unfold setAdd. by rewrite decide_True. }
    unfold setAdd. by rewrite decide_True.
  - assert (setAdd x s = s ++ [x]) as ->.
    { unfold setAdd. by rewrite decide_False. }
    unfold setAdd. rewrite decide_True; [done |].
    rewrite elem_of_app, list_elem_of_singleton. by right.
Qed.

Section RepeatedRuns.

Variable clock : nat → Z.

Lemma processLineItem_creates (po : PurchaseOrder) (projectId : string)
    (updatedItems : list IdValue) (lineItem : LineItem) (w : World) :
  findMatchingInventoryItem lineItem (items w) = None →
  approvedOrClosed po = true →
  processLineItem clock po projectId updatedItems lineItem w =
    (mkWorld
       (items w ++ [added clock (clockReads w)
                      (createInventoryItemFromPOLine lineItem projectId)])
       (S (S (S (clockReads w)))) (localStorage w),
     Return (setAdd IdUndefined updatedItems)).
Proof.
  intros Hnone Happroved. unfold processLineItem, bind, getItems.
  rewrite Hnone, Happroved. by rewrite addItem_run.
Qed.

(** X20: a run is not idempotent.  A line item of an approved or closed order
    that matches no record makes a record holding the full quantity of the
    line; processed once more, the same line item matches that record and
    adds what is outstanding on it a second time.  (The new id is one that
    no record carried.) *)
Theorem processLineItem_twice_counts_twice (po : PurchaseOrder)
    (projectId : string) (updatedItems : list IdValue) (lineItem : LineItem)
    (w : World) :
  findMatchingInventoryItem lineItem (items w) = None →
  approvedOrClosed po = true →
  (∀ x, x ∈ items w → item_id x ≠ Some (pretty (clock (clockReads w)))) →
  quantity lineItem - or_zero (received_quantity lineItem) > 0 →
  ∃ w1 u1 r1 w2 u2 r2,
    processLineItem clock po projectId updatedItems lineItem w = (w1, Return u1)
    ∧ items w1 = items w ++ [r1]
    ∧ quantityAvailable r1 = quantity lineItem
    ∧ processLineItem clock po projectId u1 lineItem w1 = (w2, Return u2)
    ∧ items w2 = items w ++ [r2]
    ∧ quantityAvailable r2 =
        Z.max 0 (quantity lineItem
                 + (quantity lineItem - or_zero (received_quantity lineItem))).
Proof.
  intros Hnone Happroved Hfresh Hout.
  set (r1 := added clock (clockReads w)
               (createInventoryItemFromPOLine lineItem projectId)).
  set (w1 := mkWorld (items w ++ [r1]) (S (S (S (clockReads w)))) (localStorage w)).
  assert (findMatchingInventoryItem lineItem (items w1)
          = Some (length (items w), r1)) as Hmatch.
  { unfold findMatchingInventoryItem in *. simpl.
    rewrite list_find_app_r by done. simpl.
    rewrite decide_True; [done |].
    unfold r1. rewrite lineMatches_created. unfold lineCovers.
    rewrite includes_refl. apply orb_true_r. }
  assert (list_find (λ item, item_id item = item_id r1) (items w1)
          = Some (length (items w), r1)) as Hfind.
  { apply resolves_find. split.
    - simpl. by rewrite lookup_app_r, Nat.sub_diag.
    - intros j y Hj Hlt. simpl in Hj. rewrite lookup_app_l in Hj by done.
      apply Hfresh. by eapply list_elem_of_lookup_2. }
  set (r2 := stocked (clock (clockReads w1))
               (quantity lineItem - or_zero (received_quantity lineItem)) r1).
  exists w1, (setAdd IdUndefined updatedItems), r1,
    (set_items (<[length (items w) := r2]> (items w1)) (tick w1)),
    (setAdd (IdOf (item_id r1)) (setAdd IdUndefined updatedItems)), r2.
  split; [by apply processLineItem_creates |].
  split; [done |]. split; [done |].
  split.
  - unfold processLineItem, bind, getItems. rewrite Hmatch, Happroved.
    rewrite bool_decide_eq_true_2 by done.
    by rewrite (adjustQuantity_stock clock _ _ w1 _ _ Hfind).
  - split; [| unfold r2; by rewrite stocked_available].
    cbn [items set_items tick w1].
    rewrite <- (Nat.add_0_r (length (items w))) at 1.
    by rewrite insert_app_r.
Qed.

Lemma forOf_creates (po : PurchaseOrder) (projectId : string)
    (lineItems : list LineItem) :
  approvedOrClosed po = true →
  unrelatedLines lineItems →
  ∀ (updatedItems : list IdValue) (w : World),
    Forall (λ lineItem, findMatchingInventoryItem lineItem (items w) = None)
           lineItems →
    ∃ w',
      forOf (processLineItem clock po projectId) lineItems updatedItems w
        = (w', Return (match lineItems with
                       | [] => updatedItems
                       | _ :: _ => setAdd IdUndefined updatedItems
                       end))
      ∧ length (items w') = (length (items w) + length lineItems)%nat
      ∧ localStorage w' = localStorage w.
Proof.
  intros Happroved.
  induction lineItems as [| lineItem rest IH]; intros Hunrelated updatedItems w Hnone.
  - exists w. simpl. split; [done |]. split; [lia | done].
  - destruct Hunrelated as [Hcovers Hrest].
    inversion Hnone as [| ? ? Hline Hothers]; subst.
    simpl forOf. unfold bind.
    rewrite processLineItem_creates by done.
    destruct (IH Hrest (setAdd IdUndefined updatedItems)
                (mkWorld
                   (items w ++ [added clock (clockReads w)
                                  (createInventoryItemFromPOLine lineItem projectId)])
                   (S (S (S (clockReads w)))) (localStorage w)))
      as (w' & Hrun & Hlen & Hst).
    { simpl. rewrite Forall_forall in *. intros later Hlater.
      unfold findMatchingInventoryItem in *.
      apply list_find_app_None. split; [by apply Hothers |].
      simpl. rewrite decide_False; [done |].
      rewrite lineMatches_created, (Hcovers later Hlater). done. }
    exists w'. rewrite Hrun. split.
    + destruct rest; [done |]. by rewrite setAdd_idempotent.
    + simpl in *. rewrite length_app in Hlen. simpl in Hlen.
      split; [lia | done].
Qed.

(** X21: the count that a run returns takes all the records it made for one:
    when one approved or closed low-voltage order arrives with at least
    one line item, no line item matches a record of the store, and none
    would match the record made of an earlier one, the run makes a record
    for each line item and returns 1. *)
Theorem syncWithPurchaseOrders_counts_created_once (procoreApi : ProcoreApi)
    (projectId : string) (po : PurchaseOrder) (lineItems : list LineItem)
    (w : World) :
  purchase_orders procoreApi projectId = Return [po] →
  line_items procoreApi projectId (po_id po) = Return lineItems →
  isLowVoltagePO po = true →
  approvedOrClosed po = true →
  lineItems ≠ [] →
  unrelatedLines lineItems →
  Forall (λ lineItem, findMatchingInventoryItem lineItem (items w) = None)
         lineItems →
  ∃ w',
    syncWithPurchaseOrders clock procoreApi projectId w = (w', Return 1)
    ∧ length (items w') = (length (items w) + length lineItems)%nat.
Proof.
  intros Hpos Hlines Hlv Happroved Hne Hunrelated Hnone.
  destruct (forOf_creates po projectId lineItems Happroved Hunrelated [] w Hnone)
    as (w' & Hrun & Hlen & _).
  unfold syncWithPurchaseOrders, bind, request. rewrite Hpos. simpl.
  unfold bind, processPurchaseOrder. rewrite Hlv. simpl.
  unfold bind, request. rewrite Hlines, Hrun.
  destruct lineItems as [| first rest]; [done |].
  simpl. eexists. split; [reflexivity |]. simpl. exact Hlen.
Qed.

End RepeatedRuns.

(** ** Categories and records made of line items *)

Lemma toLowerAscii_idempotent (c : ascii) :
  toLowerAscii (toLowerAscii c) = toLowerAscii c.
Proof. by destruct c as [[] [] [] [] [] [] [] []]. Qed.

Lemma toLowerCase_idempotent (s : string) :
  toLowerCase (toLowerCase s) = toLowerCase s.
Proof.
  induction s as [| c s IH]; [done |].
  simpl. by rewrite toLowerAscii_idempotent, IH.
Qed.

Lemma determineCategoryFromDescription_range_helper (description : string) :
  determineCategoryFromDescription description ∈ categories.
Proof.
  unfold determineCategoryFromDescription, categories.
  repeat case_match;
    repeat (first [apply list_elem_of_here | apply list_elem_of_further]).
Qed.

(** X22: the category inferred from a description is always one of the
    manager's categories; letter case does not matter; and a description
    that holds "cable" is a Cable whatever else it holds, the first rule
    of the table winning. *)
Theorem determineCategoryFromDescription_range (description : string) :
  determineCategoryFromDescription description ∈ categories
  ∧ determineCategoryFromDescription (toLowerCase description)
    = determineCategoryFromDescription description
  ∧ (containsIgnoringCase description "cable" →
     determineCategoryFromDescription description = "Cable").
Proof.
  split_and!.
  - apply determineCategoryFromDescription_range_helper.
  - unfold determineCategoryFromDescription.
    by rewrite toLowerCase_idempotent.
  - intros Hcable. unfold determineCategoryFromDescription.
    assert (includes (toLowerCase description) "cable" = true) as ->; [| done].
    by apply includes_spec.
Qed.

Lemma fifthsFrom_spec (n : nat) : ∀ q k : Z,
  fifthsFrom q n = true → q <= k < q + Z.of_nat n →
  Math_floor (numberOfZ k * 0.2)%float = k `div` 5.
Proof.
  induction n as [| n IH]; intros q k Hall Hk; [lia |].
  cbn [fifthsFrom] in Hall. apply andb_true_iff in Hall as [Hq Hrest].
  apply bool_decide_eq_true in Hq.
  destruct (decide (k = q)) as [-> | Hne]; [done |].
  apply (IH (q + 1)); [done | lia].
Qed.

Lemma fifthsFrom_range : fifthsFrom (-100000) (Z.to_nat 200001) = true.
Proof. vm_cast_no_check (eq_refl true). Qed.

Lemma Math_floor_fifth (k : Z) :
  -100000 <= k <= 100000 → Math_floor (numberOfZ k * 0.2)%float = k `div` 5.
Proof.
  intros Hk. apply (fifthsFrom_spec (Z.to_nat 200001) (-100000));
    [exact fifthsFrom_range | lia].
Qed.

(** Beyond that the product is rounded before the floor is taken: the
    fifth of 7000000000000004 is 1400000000000000.8; the threshold is
    1400000000000001. *)
Lemma Math_floor_fifth_large :
  Math_floor (numberOfZ 7000000000000004 * 0.2)%float = 1400000000000001
  ∧ 7000000000000004 `div` 5 = 1400000000000000.
Proof. split; by vm_compute. Qed.

Section Creation.

Variable clock : nat → Z.

(** X23: the record that the reconciliation makes of a line item that matches
    nothing, in an approved or closed order: it is appended to the store;
    it holds the quantity of the line as available, nothing allocated, the
    category inferred from the description, a unit that is not empty; its
    reorder threshold is the floor of the binary64 product of the quantity
    and 0.2.  For an integer quantity of at most 100000 in magnitude that
    is the fifth of the quantity, rounded down, and the record is due for
    reorder from the start exactly when the quantity is not positive. *)
Theorem processLineItem_created_record (po : PurchaseOrder) (projectId : string)
    (updatedItems : list IdValue) (lineItem : LineItem) (w : World) :
  findMatchingInventoryItem lineItem (items w) = None →
  approvedOrClosed po = true →
  ∃ w' updatedItems' r,
    processLineItem clock po projectId updatedItems lineItem w
      = (w', Return updatedItems')
    ∧ items w' = items w ++ [r]
    ∧ quantityAvailable r = quantity lineItem
    ∧ quantityAllocated r = 0
    ∧ reorderQuantity r = quantity lineItem
    ∧ category r = determineCategoryFromDescription (line_description lineItem)
    ∧ category r ∈ categories
    ∧ unitOfMeasure r ≠ ""
    ∧ location r = "From PO"
    ∧ reorderThreshold r = Math_floor (numberOfZ (quantity lineItem) * 0.2)%float
    ∧ (-100000 <= quantity lineItem <= 100000 →
       reorderThreshold r = quantity lineItem `div` 5
       ∧ (needsReorder r = true ↔ quantity lineItem <= 0)).
Proof.
  intros Hnone Happroved. eexists _, _, _.
  split; [by apply processLineItem_creates |].
  split; [done |].
  do 4 (split; [done |]).
  split; [apply determineCategoryFromDescription_range_helper |].
  split.
  { simpl. unfold or_each. destruct (unit lineItem) as [u |]; [| done].
    by case_decide. }
  split; [done |]. split; [done |].
  intros Hq.
  assert (reorderThreshold
            (added clock (clockReads w)
               (createInventoryItemFromPOLine lineItem projectId))
          = quantity lineItem `div` 5) as Hthreshold.
  { change (Math_floor (numberOfZ (quantity lineItem) * 0.2)%float
            = quantity lineItem `div` 5).
    by apply Math_floor_fifth. }
  split; [exact Hthreshold |].
  unfold needsReorder. rewrite bool_decide_eq_true, Hthreshold.
  change (quantityAvailable
            (added clock (clockReads w)
               (createInventoryItemFromPOLine lineItem projectId)))
    with (quantity lineItem).
  pose proof (Z.div_mod (quantity lineItem) 5 ltac:(lia)) as Hdm.
  pose proof (Z.mod_pos_bound (quantity lineItem) 5 ltac:(lia)) as Hb.
  lia.
Qed.

End Creation.

(** ** Which orders count *)

Lemma lvKeywords_lower (keyword : string) :
  keyword ∈ lvKeywords → toLowerCase keyword = keyword.
Proof.
  unfold lvKeywords. rewrite !elem_of_cons, elem_of_nil.
  intros [-> | [-> | [-> | [-> | [-> | [-> | [-> | []]]]]]]]; reflexivity.
Qed.

(** X24: an order is for low-voltage material exactly when its title or its
    description holds one of the seven keywords, letter case ignored; an
    order with neither title nor description never is. *)
Theorem isLowVoltagePO_spec (po : PurchaseOrder) :
  (isLowVoltagePO po = true ↔
     ∃ keyword text,
       keyword ∈ lvKeywords
       ∧ (title po = Some text ∨ po_description po = Some text)
       ∧ containsIgnoringCase text keyword)
  ∧ (title po = None → po_description po = None → isLowVoltagePO po = false).
Proof.
  split.
  - unfold isLowVoltagePO. rewrite existsb_exists. split.
    + intros (keyword & Hin%list_elem_of_In & Hhit).
      apply orb_true_iff in Hhit as [Hhit | Hhit].
      * destruct (title po) as [text |] eqn:Ht; [| discriminate Hhit].
        exists keyword, text. split; [done |]. split; [by left |].
        unfold containsIgnoringCase. rewrite (lvKeywords_lower keyword) by done.
        by apply includes_spec.
      * destruct (po_description po) as [text |] eqn:Hd; [| discriminate Hhit].
        exists keyword, text. split; [done |]. split; [by right |].
        unfold containsIgnoringCase. rewrite (lvKeywords_lower keyword) by done.
        by apply includes_spec.
    + intros (keyword & text & Hin & Hwhere & Hc).
      exists keyword. split; [by apply list_elem_of_In |].
      unfold containsIgnoringCase in Hc. rewrite (lvKeywords_lower keyword) in Hc by done.
      apply includes_spec in Hc. apply orb_true_iff.
      destruct Hwhere as [-> | ->]; [by left | by right].
  - intros Ht Hd. unfold isLowVoltagePO. rewrite Ht, Hd. done.
Qed.

(** ** Searching *)

Section SearchFacts.

Variable inherited : string → JSValue.
Variable dateToString : Z → string.

Lemma criterionHolds_spec (item : LVInventoryItem) (key value : string) :
  criterionHolds inherited dateToString item key value = true ↔
    truthy (getProperty inherited item key) = true
    ∧ containsIgnoringCase
        (toString dateToString (getProperty inherited item key)) value.
Proof.
  unfold criterionHolds, containsIgnoringCase.
  rewrite negb_true_iff, orb_false_iff, !negb_false_iff, includes_spec. done.
Qed.

(** X25: the search returns, in the order of the store, exactly the records
    that meet every criterion: under each key of the criteria the record
    holds a truthy value whose text holds the text asked for, letter case
    ignored.  Hence more criteria never find more records, and the letter
    case of the texts asked for does not matter. *)
Theorem searchItems_spec (l : list LVInventoryItem)
    (criteria : gmap string string) :
  (∀ r, r ∈ searchItems inherited dateToString l criteria ↔
        r ∈ l ∧ ∀ key value, criteria !! key = Some value →
                  truthy (getProperty inherited r key) = true
                  ∧ containsIgnoringCase
                      (toString dateToString (getProperty inherited r key)) value)
  ∧ searchItems inherited dateToString l criteria `sublist_of` l
  ∧ (∀ more r, criteria ⊆ more →
       r ∈ searchItems inherited dateToString l more →
       r ∈ searchItems inherited dateToString l criteria)
  ∧ searchItems inherited dateToString l (toLowerCase <$> criteria)
    = searchItems inherited dateToString l criteria.
Proof.
  assert (∀ c r, r ∈ searchItems inherited dateToString l c ↔
        r ∈ l ∧ ∀ key value, c !! key = Some value →
                  truthy (getProperty inherited r key) = true
                  ∧ containsIgnoringCase
                      (toString dateToString (getProperty inherited r key)) value)
    as Hspec.
  { intros c r. unfold searchItems. rewrite list_elem_of_filter.
    unfold map_Forall. setoid_rewrite criterionHolds_spec. tauto. }
  split; [apply Hspec |]. split; [apply sublist_filter |]. split.
  - intros more r Hsub. rewrite !Hspec. intros [Hin Hall]. split; [done |].
    intros key value Hkey. apply Hall. by eapply lookup_weaken.
  - unfold searchItems. apply list_filter_iff. intros r.
    rewrite map_Forall_fmap. unfold map_Forall.
    split; intros Hall key value Hkey; specialize (Hall key value Hkey);
      simpl in *; rewrite criterionHolds_spec in *;
      unfold containsIgnoringCase in *;
      by rewrite ?toLowerCase_idempotent in *.
Qed.

(** X26: what the page's search box shows: every record for the empty term;
    else records of the store, in its order; and every record that the
    manager's search finds for the term under one of the six texts that
    the box looks at is among them. *)
Theorem filterInventoryItems_covers_search (l : list LVInventoryItem)
    (key searchTerm : string) :
  key ∈ ["category"; "subCategory"; "manufacturer"; "partNumber";
         "description"; "location"] →
  filterInventoryItems l "" = l
  ∧ filterInventoryItems l searchTerm `sublist_of` l
  ∧ ∀ r, r ∈ searchItems inherited dateToString l {[ key := searchTerm ]} →
         r ∈ filterInventoryItems l searchTerm.
Proof.
  intros Hkey. split; [done |]. split.
  { unfold filterInventoryItems. case_decide; [done | apply sublist_filter]. }
  intros r. unfold searchItems, filterInventoryItems.
  rewrite list_elem_of_filter. intros [Hall Hin].
  case_decide; [done |]. apply list_elem_of_filter. split; [| done].
  specialize (Hall key searchTerm (lookup_singleton_eq _ _)). simpl in Hall.
  unfold criterionHolds in Hall.
  apply negb_true_iff, orb_false_iff in Hall as [_ Hhit%negb_false_iff].
  apply existsb_exists.
  rewrite !elem_of_cons, elem_of_nil in Hkey.
  destruct Hkey as [-> | [-> | [-> | [-> | [-> | [-> | []]]]]]];
    [exists (category r) | exists (subCategory r) | exists (manufacturer r)
    | exists (partNumber r) | exists (description r) | exists (location r)];
    (split; [simpl; tauto | exact Hhit]).
Qed.

End SearchFacts.

(** ** Saving and loading *)

Lemma or_null_not_empty (x : option string) : or_null x ≠ Some "".
Proof.
  destruct x as [s |]; [| done]. simpl. case_decide; [done | congruence].
Qed.

Section Persistence.

Variable clock : nat → Z.

Lemma newLVInventoryItem_constructed (data : ItemData) (w : World) :
  ∃ w' r,
    newLVInventoryItem clock data w = (w', Return r)
    ∧ items w' = items w
    ∧ localStorage w' = localStorage w
    ∧ constructed r
    ∧ quantityAvailable r = or_zero (d_quantityAvailable data)
    ∧ quantityAllocated r = or_zero (d_quantityAllocated data).
Proof.
  unfold newLVInventoryItem, bind, newDate, ret.
  destruct (d_lastUpdated data), (d_createdAt data); simpl;
    eexists _, _; (split; [reflexivity |]); simpl;
    repeat split; apply or_null_not_empty.
Qed.



Lemma mapEff_load (data : list ItemData) (w : World) :
  ∃ w' loaded,
    mapEff (newLVInventoryItem clock) data w = (w', Return loaded)
    ∧ items w' = items w
    ∧ localStorage w' = localStorage w
    ∧ Forall constructed loaded
    ∧ Forall2 (λ d r, quantityAvailable r = or_zero (d_quantityAvailable d)
                      ∧ quantityAllocated r = or_zero (d_quantityAllocated d))
              data loaded.
Proof.
  revert w. induction data as [| d data IH]; intros w.
  - exists w, []. by repeat split.
  - destruct (newLVInventoryItem_constructed d w)
      as (w1 & r & Hrun & Hit & Hst & Hc & Hqa & Hql).
    destruct (IH w1) as (w2 & loaded & Hrest & Hit2 & Hst2 & Hcs & Hqs).
    exists w2, (r :: loaded). cbn [mapEff]. unfold bind at 1. rewrite Hrun.
    unfold bind at 1. rewrite Hrest.
    split; [done |]. split; [congruence |]. split; [congruence |].
    split; by constructor.
Qed.


(** X28: loading from the answer of the vendor: the array becomes one record
    for each object of the answer, in its order, each as the constructor
    makes it (missing numbers are 0, an empty id is [null]); what the
    array held before is dropped and the browser storage is not touched. *)
Theorem loadInventory_from_response (projectId : string) (data : list ItemData)
    (w : World) :
  ∃ w' loaded,
    loadInventory clock (Return data) projectId w = (w', Return loaded)
    ∧ items w' = loaded
    ∧ length loaded = length data
    ∧ Forall constructed loaded
    ∧ Forall2 (λ d r, quantityAvailable r = or_zero (d_quantityAvailable d)
                      ∧ quantityAllocated r = or_zero (d_quantityAllocated d))
              data loaded
    ∧ localStorage w' = localStorage w.
Proof.
  destruct (mapEff_load data w) as (w1 & loaded & Hrun & Hit & Hst & Hc & Hq).
  exists (set_items loaded w1), loaded.
  unfold loadInventory, bind. rewrite Hrun. simpl.
  split; [done |]. split; [done |].
  split; [symmetry; by eapply Forall2_length |]. by split_and!.
Qed.

End Persistence.

(** ** Records stay as the constructor makes them *)

Lemma constructed_same_ids (r r' : LVInventoryItem) :
  item_id r' = item_id r → projectId r' = projectId r →
  constructed r → constructed r'.
Proof. unfold constructed. by intros -> ->. Qed.

Lemma added_constructed (clock : nat → Z) (n : nat) (data : ItemData) :
  constructed (added clock n data).
Proof.
  split; simpl; [| apply or_null_not_empty].
  intros [= Hempty]. by destruct (pretty_Z_nonempty (clock n)).
Qed.

Lemma updated_constructed (now : Z) (r : LVInventoryItem) (updates : ItemData) :
  constructed r → constructed (updated now r updates).
Proof.
  intros [Hid Hpid]. split; cbn [item_id projectId updated].
  - destruct (d_id updates); [apply or_null_not_empty | done].
  - destruct (d_projectId updates); [apply or_null_not_empty | done].
Qed.

Section Invariant.

Variable clock : nat → Z.

Lemma adjustQuantity_constructed itemId delta mode w :
  Forall constructed (items w) →
  Forall constructed (items (fst (adjustQuantity clock itemId delta mode w))).
Proof.
  intros Hall.
  destruct (list_find (λ item, item_id item = itemId) (items w))
    as [[i r] |] eqn:Hfind.
  - assert (constructed r) as Hr.
    { apply list_find_Some in Hfind as (Hi & _ & _).
      by eapply (Forall_lookup_1 _ _ _ _ Hall Hi). }
    destruct mode.
    + destruct (decide (delta > 0 ∧ quantityAvailable r < delta)) as [[? ?] | Hok].
      * by erewrite adjustQuantity_insufficient.
      * erewrite adjustQuantity_allocation by done.
        apply Forall_insert; [done |]. by apply (constructed_same_ids r).
    + erewrite adjustQuantity_stock by done.
      apply Forall_insert; [done |]. by apply (constructed_same_ids r).
  - by rewrite adjustQuantity_not_found.
Qed.

Lemma updateItem_constructed itemId updates w :
  Forall constructed (items w) →
  Forall constructed (items (fst (updateItem clock itemId updates w))).
Proof.
  intros Hall.
  destruct (list_find (λ item, item_id item = itemId) (items w))
    as [[i r] |] eqn:Hfind.
  - assert (item_id r = itemId ∧ constructed r) as [<- Hr].
    { apply list_find_Some in Hfind as (Hi & Hid & _). split; [done |].
      by eapply (Forall_lookup_1 _ _ _ _ Hall Hi). }
    apply resolves_find in Hfind.
    rewrite (updateItem_run clock w i r updates Hfind Hr).
    apply Forall_insert; [done |]. by apply updated_constructed.
  - unfold updateItem, bind, getItems. by rewrite Hfind.
Qed.

Lemma deleteItem_constructed itemId w :
  Forall constructed (items w) →
  Forall constructed (items (fst (deleteItem itemId w))).
Proof.
  intros Hall. unfold deleteItem, bind, getItems.
  destruct (list_find (λ item, item_id item = itemId) (items w)) as [[i r] |];
    [| done].
  simpl. by apply Forall_delete.
Qed.

Lemma addItem_constructed data w :
  Forall constructed (items w) →
  Forall constructed (items (fst (addItem clock data w))).
Proof.
  intros Hall. rewrite addItem_run. simpl.
  apply Forall_app. split; [done |].
  constructor; [apply added_constructed | constructor].
Qed.

Lemma loadInventory_constructed response projectId w :
  Forall constructed (items w) →
  Forall constructed (items (fst (loadInventory clock response projectId w))).
Proof.
  intros Hall. unfold loadInventory, bind.
  destruct response as [data | e].
  - destruct (mapEff_load clock data w) as (w1 & loaded & Hrun & _ & _ & Hc & _).
    by rewrite Hrun.
  - destruct (localStorage w !! ("inventory_" +:+ projectId)) as [stored |]; [| done].
    unfold bind.
    destruct (mapEff_load clock (dataOf <$> stored) w)
      as (w1 & loaded & Hrun & _ & _ & Hc & _).
    by rewrite Hrun.
Qed.

(** X29: in a store of records as the constructor makes them (an id that is
    not [null] is not empty, and likewise the project id), every
    operation leaves only such records, whether it returns or throws:
    adding, updating, deleting, adjusting, loading, and a reconciliation
    run. *)
Theorem operations_keep_constructed (procoreApi : ProcoreApi) (w : World)
    (itemId : option string) (data updates : ItemData) (delta : Z) (mode : bool)
    (response : Outcome (list ItemData)) (projectId : string) :
  Forall constructed (items w) →
  Forall constructed (items (fst (addItem clock data w)))
  ∧ Forall constructed (items (fst (updateItem clock itemId updates w)))
  ∧ Forall constructed (items (fst (deleteItem itemId w)))
  ∧ Forall constructed (items (fst (adjustQuantity clock itemId delta mode w)))
  ∧ Forall constructed (items (fst (loadInventory clock response projectId w)))
  ∧ Forall constructed
      (items (fst (syncWithPurchaseOrders clock procoreApi projectId w))).
Proof.
  intros Hall.
  split; [by apply addItem_constructed |].
  split; [by apply updateItem_constructed |].
  split; [by apply deleteItem_constructed |].
  split; [by apply adjustQuantity_constructed |].
  split; [by apply loadInventory_constructed |].
  unfold syncWithPurchaseOrders, bind, request.
  destruct (purchase_orders procoreApi projectId) as [purchaseOrders | e]; [| done].
  set (P := λ (w' : World) (_ : list IdValue), Forall constructed (items w')).
  set (Q := λ w' : World, Forall constructed (items w')).
  assert (match forOf (processPurchaseOrder clock procoreApi projectId)
                  purchaseOrders [] w with
          | (w', Return acc') => P w' acc'
          | (w', Throw _) => Q w'
          end) as Hloop.
  { apply (forOf_invariant P Q); [| done].
    intros acc po w1 _ Hw1. unfold processPurchaseOrder.
    destruct (isLowVoltagePO po); simpl; [| done].
    unfold bind, request.
    destruct (line_items procoreApi projectId (po_id po)) as [lineItems | e];
      [| done].
    apply (forOf_invariant P Q); [| done].
    intros acc2 lineItem w2 _ Hw2.
    unfold processLineItem, bind, getItems.
    destruct (findMatchingInventoryItem lineItem (items w2)) as [[i r] |].
    - destruct (approvedOrClosed po); [| done].
      case_bool_decide; [| done].
      pose proof (adjustQuantity_constructed (item_id r)
                    (quantity lineItem - or_zero (received_quantity lineItem))
                    false w2 Hw2) as Hadj.
      by destruct (adjustQuantity clock (item_id r)
                     (quantity lineItem - or_zero (received_quantity lineItem))
                     false w2) as [w3 [r3 | e3]].
    - destruct (approvedOrClosed po); [| done].
      pose proof (addItem_constructed
                    (createInventoryItemFromPOLine lineItem projectId) w2 Hw2)
        as Hadd.
      by destruct (addItem clock (createInventoryItemFromPOLine lineItem projectId) w2)
        as [w3 [r3 | e3]]. }
  destruct (forOf (processPurchaseOrder clock procoreApi projectId)
              purchaseOrders [] w) as [w' [updated | e]]; [| exact Hloop].
  by case_bool_decide.
Qed.

End Invariant.

(** ** The form handlers *)

Section HandlerFacts.

Variable clock : nat → Z.










End HandlerFacts.

(** * Examples of the further properties *)

Lemma sampleStore_resolves_17 : resolves (items sampleStore) 0 record17.
Proof. split; [reflexivity | intros j y _ Hj; lia]. Qed.

Lemma sampleStore_resolves_18 : resolves (items sampleStore) 1 record18.
Proof.
  split; [reflexivity |]. intros j y Hj Hlt.
  destruct j as [| j]; [| lia]. injection Hj as <-. discriminate.
Qed.

Lemma sampleStore_constructed : Forall constructed (items sampleStore).
Proof. repeat constructor; discriminate. Qed.

Lemma sampleStore_NoDup : NoDup (item_id <$> items sampleStore).
Proof.
  simpl. apply NoDup_cons. split; [| apply NoDup_singleton].
  rewrite list_elem_of_singleton. discriminate.
Qed.

Lemma sampleStore_unknown_id (id : string) :
  id ≠ "17" → id ≠ "18" →
  ∀ r, r ∈ items sampleStore → item_id r ≠ Some id.
Proof.
  intros H17 H18 r Hr. apply list_elem_of_In in Hr. simpl in Hr.
  destruct Hr as [<- | [<- | []]]; simpl; congruence.
Qed.

Lemma unknown_id_is_not_found_witness :
  updateItem clock0 (Some "99") sampleUpdates sampleStore
    = (sampleStore, Throw (NotFound (Some "99")))
  ∧ deleteItem (Some "99") sampleStore
    = (sampleStore, Throw (NotFound (Some "99")))
  ∧ adjustQuantity clock0 (Some "99") 1 false sampleStore
    = (sampleStore, Throw (NotFound (Some "99"))).
Proof.
  apply (unknown_id_is_not_found clock0 sampleStore (Some "99") sampleUpdates 1 false).
  by apply sampleStore_unknown_id.
Defined.

Lemma updateItem_replaces_resolved_record_witness :
  ∃ w' r',
    updateItem clock0 (item_id record18) sampleUpdates sampleStore = (w', Return r')
    ∧ r' = updated (clock0 0) record18 sampleUpdates
    ∧ items w' = <[1%nat := r']> (items sampleStore)
    ∧ length (items w') = 2%nat.
Proof.
  destruct (updateItem_replaces_resolved_record clock0 sampleStore 1 record18
              sampleUpdates sampleStore_resolves_18)
    as (w' & r' & Hrun & Hr' & Hitems & Hlen & _).
  - split; discriminate.
  - exists w', r'. by split_and!.
Defined.

Lemma deleteItem_removes_resolved_record_witness :
  ∃ w',
    deleteItem (item_id record17) sampleStore = (w', Return true)
    ∧ items w' = [record18]
    ∧ clockReads w' = 0%nat.
Proof.
  destruct (deleteItem_removes_resolved_record sampleStore 0 record17
              sampleStore_resolves_17)
    as (w' & Hrun & Hitems & _ & Hclock & _).
  exists w'. by split_and!.
Defined.

Lemma deleteItem_then_not_found_witness :
  ∃ w',
    deleteItem (item_id record18) sampleStore = (w', Return true)
    ∧ adjustQuantity clock0 (item_id record18) 1 false w'
      = (w', Throw (NotFound (item_id record18)))
    ∧ updateItem clock0 (item_id record18) sampleUpdates w'
      = (w', Throw (NotFound (item_id record18)))
    ∧ deleteItem (item_id record18) w'
      = (w', Throw (NotFound (item_id record18))).
Proof.
  apply (deleteItem_then_not_found clock0 sampleStore record18 sampleUpdates 1 false
           sampleStore_NoDup).
  apply list_elem_of_In. simpl. tauto.
Defined.

Lemma addItem_then_deleteItem_witness :
  ∃ w1 r w2,
    addItem clock0 (sampleData 5) sampleStore = (w1, Return r)
    ∧ deleteItem (item_id r) w1 = (w2, Return true)
    ∧ items w2 = items sampleStore.
Proof.
  apply (addItem_then_deleteItem clock0 sampleStore (sampleData 5)).
  apply sampleStore_unknown_id; by vm_compute.
Defined.

Lemma addItem_colliding_id_witness :
  let w := sampleWorld [addedRecord 5] in
  ∃ w1 r w2,
    addItem clock0 (sampleData 7) w = (w1, Return r)
    ∧ resolves (items w1) 0 (addedRecord 5)
    ∧ item_id r = item_id (addedRecord 5)
    ∧ deleteItem (item_id r) w1 = (w2, Return true)
    ∧ items w2 = delete 0%nat (items w) ++ [r].
Proof.
  intros w.
  apply (addItem_colliding_id clock0 w (sampleData 7) 0 (addedRecord 5)).
  - split; [reflexivity | intros j y _ Hj; lia].
  - by vm_compute.
Defined.

Lemma allocate_then_return_restores_witness :
  ∃ w1 r1 w2 r2,
    adjustQuantity clock0 (item_id record18) 4 true sampleStore = (w1, Return r1)
    ∧ adjustQuantity clock0 (item_id record18) (- 4) true w1 = (w2, Return r2)
    ∧ r2 = set_lastUpdated (clock0 1) record18
    ∧ items w2 = <[1%nat := r2]> (items sampleStore).
Proof.
  apply (allocate_then_return_restores clock0 sampleStore 1 record18 4
           sampleStore_resolves_18); simpl; lia.
Defined.

Lemma stock_add_remove_order_witness :
  (∃ w1 r1 w2 r2,
      adjustQuantity clock0 (item_id record17) 5 false sampleStore = (w1, Return r1)
      ∧ adjustQuantity clock0 (item_id record17) (- 5) false w1 = (w2, Return r2)
      ∧ items w2 = <[0%nat := r2]> (items sampleStore)
      ∧ quantityAvailable r2 = quantityAvailable record17)
  ∧ (∃ w1 r1 w2 r2,
      adjustQuantity clock0 (item_id record17) (- 5) false sampleStore = (w1, Return r1)
      ∧ adjustQuantity clock0 (item_id record17) 5 false w1 = (w2, Return r2)
      ∧ items w2 = <[0%nat := r2]> (items sampleStore)
      ∧ quantityAvailable r2 = Z.max (quantityAvailable record17) 5).
Proof.
  apply (stock_add_remove_order clock0 sampleStore 0 record17 5
           sampleStore_resolves_17); simpl; lia.
Defined.

Lemma sampleStore_categories :
  Forall (λ r, category r ∉ objectPrototypeNames) (items sampleStore).
Proof.
  repeat constructor; intros Hin%list_elem_of_In; simpl in Hin;
    repeat (destruct Hin as [Hin | Hin]; [discriminate Hin |]); done.
Qed.

Lemma byCategory_entry_per_category_witness :
  byCategory (generateInventoryReport noInherited plainDate (items sampleStore) ∅)
    !! "Cable" = Some (mkTotals 2 130).
Proof.
  etrans.
  - apply (byCategory_entry_per_category noInherited plainDate
             (items sampleStore) ∅ "Cable" sampleStore_categories).
  - by vm_compute.
Defined.

Lemma byCategory_adds_up_to_totals_witness :
  categoryCountTotal
    (byCategory (generateInventoryReport noInherited plainDate (items sampleStore) ∅))
    = 2
  ∧ categoryValueTotal
      (byCategory (generateInventoryReport noInherited plainDate (items sampleStore) ∅))
    = 130.
Proof.
  destruct (byCategory_adds_up_to_totals noInherited plainDate
              (items sampleStore) ∅ sampleStore_categories) as [Hcount Hvalue].
  split; [by rewrite Hcount | by rewrite Hvalue].
Defined.

Lemma exportToCSV_lines_witness :
  length (splitOn (ascii_of_nat 10) (exportToCSV plainDate (items sampleStore)))
    = 3%nat.
Proof.
  apply (exportToCSV_lines plainDate (items sampleStore)).
  repeat constructor; by vm_compute.
Defined.


Lemma processLineItem_twice_counts_twice_witness :
  ∃ w1 u1 r1 w2 u2 r2,
    processLineItem clock0 (sampleOrder "Closed") "P1" [] cableLine world0
      = (w1, Return u1)
    ∧ items w1 = items world0 ++ [r1]
    ∧ quantityAvailable r1 = 10
    ∧ processLineItem clock0 (sampleOrder "Closed") "P1" u1 cableLine w1
      = (w2, Return u2)
    ∧ items w2 = items world0 ++ [r2]
    ∧ quantityAvailable r2 = 18.
Proof.
  apply (processLineItem_twice_counts_twice clock0 (sampleOrder "Closed") "P1"
           [] cableLine world0).
  - reflexivity.
  - by vm_compute.
  - intros x Hx. by apply elem_of_nil in Hx.
  - by vm_compute.
Defined.

Lemma syncWithPurchaseOrders_counts_created_once_witness :
  ∃ w',
    syncWithPurchaseOrders clock0 twoLineApi "P1" world0 = (w', Return 1)
    ∧ length (items w') = 2%nat.
Proof.
  apply (syncWithPurchaseOrders_counts_created_once clock0 twoLineApi "P1"
           (sampleOrder "Approved") [cableLine; cameraLine] world0).
  - reflexivity.
  - reflexivity.
  - by vm_compute.
  - by vm_compute.
  - discriminate.
  - split; [| done]. constructor; [by vm_compute | constructor].
  - by repeat constructor.
Defined.

Lemma processLineItem_created_record_witness :
  ∃ w' updatedItems' r,
    processLineItem clock0 (sampleOrder "Closed") "P1" [] cameraLine sampleStore
      = (w', Return updatedItems')
    ∧ items w' = items sampleStore ++ [r]
    ∧ quantityAvailable r = 4
    ∧ quantityAllocated r = 0
    ∧ reorderQuantity r = 4
    ∧ category r = "Devices"
    ∧ category r ∈ categories
    ∧ unitOfMeasure r ≠ ""
    ∧ location r = "From PO"
    ∧ reorderThreshold r = 0
    ∧ (needsReorder r = true ↔ 4 <= 0).
Proof.
  destruct (processLineItem_created_record clock0 (sampleOrder "Closed") "P1" []
              cameraLine sampleStore)
    as (w' & updatedItems' & r & Hrun & Hitems & Havailable & Hallocated
        & Hquantity & Hcategory & Hrange & Hunit & Hlocation & _ & Hsmall);
    [by vm_compute | by vm_compute |].
  destruct Hsmall as [Hfifth Hreorder]; [simpl; lia |].
  exists w', updatedItems', r.
  split; [exact Hrun |]. split; [exact Hitems |].
  split; [exact Havailable |]. split; [exact Hallocated |].
  split; [exact Hquantity |]. split; [exact Hcategory |].
  split; [exact Hrange |]. split; [exact Hunit |].
  split; [exact Hlocation |]. split; [exact Hfifth | exact Hreorder].
Defined.

Lemma filterInventoryItems_covers_search_witness :
  filterInventoryItems (items sampleStore) "" = items sampleStore
  ∧ filterInventoryItems (items sampleStore) "CAT6" `sublist_of` items sampleStore
  ∧ ∀ r, r ∈ searchItems noInherited plainDate (items sampleStore)
               {[ "description" := "CAT6" ]} →
         r ∈ filterInventoryItems (items sampleStore) "CAT6".
Proof.
  apply (filterInventoryItems_covers_search noInherited plainDate
           (items sampleStore) "description" "CAT6").
  apply list_elem_of_In. simpl. tauto.
Defined.


Lemma operations_keep_constructed_witness :
  Forall constructed (items (fst (addItem clock0 (sampleData 5) sampleStore)))
  ∧ Forall constructed
      (items (fst (updateItem clock0 (Some "18") sampleUpdates sampleStore)))
  ∧ Forall constructed (items (fst (deleteItem (Some "18") sampleStore)))
  ∧ Forall constructed
      (items (fst (adjustQuantity clock0 (Some "18") 2 true sampleStore)))
  ∧ Forall constructed
      (items (fst (loadInventory clock0 (Return [sampleData 5]) "P1" sampleStore)))
  ∧ Forall constructed
      (items (fst (syncWithPurchaseOrders clock0 twoLineApi "P1" sampleStore))).
Proof.
  exact (operations_keep_constructed clock0 twoLineApi sampleStore (Some "18")
           (sampleData 5) sampleUpdates 2 true (Return [sampleData 5]) "P1"
           sampleStore_constructed).
Defined.
